(** * Append length to CSV

    A shallow embedding of [ExampleProcessingAlgorithm.processAlgorithm]
    (appendlengthtoCSV.py): the QGIS Processing algorithm that sums the
    geodesic length of the features of four line layers, rounds each sum to
    whole kilometres and appends two rows to a CSV file.

    The script is a straight-line procedure over three collaborators:
    - the Python built-ins it calls ([sum], [round], [str], f-strings,
      [dict]), modelled in [Module Py];
    - [csv.writer] with the default (excel) dialect, modelled in [Module Csv];
    - the QGIS host (parameter resolution, features, [QgsDistanceArea]) and
      the two library functions whose algorithms are not the script's
      ([repr] of a float, [str(Path(..))]), collected in [Class Host].

    Floats are IEEE binary64 values, as in CPython: Rocq's primitive floats. *)

From Stdlib Require Import ZArith QArith Qabs Lqa List String Ascii Lia.
From Stdlib Require Import PrimFloat SpecFloat FloatOps DecimalString DecimalZ.
From stdpp Require Import gmap strings.

Import ListNotations.
Local Open Scope Z_scope.

(** ** Python built-ins *)

Module Py.

(** The exceptions the procedure can raise. *)
Inductive exn : Type :=
| AttributeError (obj attr : string)
| KeyError (key : string)
| ValueError (msg : string)
| OverflowError (msg : string)
| QgsProcessingException (msg : string).

Inductive result (A : Type) : Type :=
| Ok (a : A)
| Raise (e : exn).
Arguments Ok {A} a.
Arguments Raise {A} e.

(** A Python number: [sum] starts from the [int] 0 and the host's
    measurements are [float]s. *)
Inductive pynum : Type :=
| PyInt (z : Z)
| PyFloat (f : float).

(** [float(z)]: the binary64 value nearest to [z], ties to even. *)
Definition float_of_int (z : Z) : float :=
  SF2Prim (binary_normalize prec emax z 0 false).

(** The C double a Python number is passed as to a host method. *)
Definition to_double (x : pynum) : float :=
  match x with
  | PyInt z => float_of_int z
  | PyFloat f => f
  end.

(** [acc + x] for a float [x]: an [int] accumulator is converted first. *)
Definition py_add_float (acc : pynum) (x : float) : pynum :=
  PyFloat (to_double acc + x)%float.

(** [sum(xs)] over floats: left to right from the [int] 0. *)
Definition py_sum (xs : list float) : pynum :=
  fold_left py_add_float xs (PyInt 0).

(** The truth value of an [int]: zero is false. *)
Definition truthy (z : Z) : bool := negb (z =? 0)%Z.

(** [str(z)] for an [int]. *)
Definition str_of_int (z : Z) : string :=
  NilZero.string_of_int (Z.to_int z).

(** The integer nearest to [m * 2^e] for [m >= 0], ties to the even one. *)
Definition round_half_even (m e : Z) : Z :=
  match e with
  | Zneg p =>
      let d := Z.pow_pos 2 p in
      let q := m / d in
      let r := m mod d in
      match 2 * r ?= d with
      | Lt => q
      | Gt => q + 1
      | Eq => if Z.even q then q else q + 1
      end
  | _ => m * 2 ^ e
  end.

(** [round(x)] with one argument: an [int], or an exception on a NaN or
    an infinity. *)
Definition py_round (x : float) : result Z :=
  match Prim2SF x with
  | S754_zero _ => Ok 0
  | S754_infinity _ =>
      Raise (OverflowError "cannot convert float infinity to integer")
  | S754_nan => Raise (ValueError "cannot convert float NaN to integer")
  | S754_finite s m e =>
      let n := round_half_even (Zpos m) e in
      Ok (if s then - n else n)
  end.

(** The rational [m * 2^e]. *)
Definition magnitude (m : positive) (e : Z) : Q :=
  match e with
  | Zneg p => Qmake (Zpos m) (Pos.pow 2 p)
  | _ => inject_Z (Zpos m * 2 ^ e)
  end.

(** The rational a finite float denotes (used to state what [py_round]
    returns; the code never computes it). *)
Definition float_value (x : float) : option Q :=
  match Prim2SF x with
  | S754_zero _ => Some 0%Q
  | S754_finite s m e => Some (if s then Qopp (magnitude m e) else magnitude m e)
  | _ => None
  end.

End Py.
Export Py.

(** ** The CSV writer *)

Module Csv.

(** A field of a row: the script writes strings and ints. *)
Inductive cell : Type :=
| CStr (s : string)
| CInt (z : Z).

(** The text of a field before quoting: a [str] as it is, [str(z)] for an
    [int]. *)
Definition cell_text (c : cell) : string :=
  match c with
  | CStr s => s
  | CInt z => str_of_int z
  end.

Definition delimiter : ascii := ","%char.
Definition quotechar : ascii := ascii_of_nat 34.
Definition lineterminator : string :=
  String (ascii_of_nat 13) (String (ascii_of_nat 10) EmptyString).

(** QUOTE_MINIMAL: a field is quoted when it holds the delimiter, the
    quote character or a character of the line terminator. *)
Definition is_special (c : ascii) : bool :=
  Ascii.eqb c delimiter || Ascii.eqb c quotechar
  || Ascii.eqb c (ascii_of_nat 13) || Ascii.eqb c (ascii_of_nat 10).

Fixpoint needs_quotes (s : string) : bool :=
  match s with
  | EmptyString => false
  | String c rest => is_special c || needs_quotes rest
  end.

(** doublequote: a quote character inside a field is written twice. *)
Fixpoint double_quotes (s : string) : string :=
  match s with
  | EmptyString => EmptyString
  | String c rest =>
      if Ascii.eqb c quotechar
      then String quotechar (String quotechar (double_quotes rest))
      else String c (double_quotes rest)
  end.

Definition write_field (c : cell) : string :=
  let s := cell_text c in
  if needs_quotes s
  then String quotechar (double_quotes s +:+ String quotechar EmptyString)
  else s.

Fixpoint join_fields (fs : list string) : string :=
  match fs with
  | [] => EmptyString
  | [f] => f
  | f :: rest => f +:+ String delimiter (join_fields rest)
  end.

(** The line [writerow] hands to the file's [write]. A row whose only
    field is empty is written as a pair of quotes. *)
Definition format_row (row : list cell) : string :=
  match row with
  | [c] =>
      if String.eqb (cell_text c) EmptyString
      then String quotechar (String quotechar lineterminator)
      else write_field c +:+ lineterminator
  | _ => join_fields (map write_field row) +:+ lineterminator
  end.

End Csv.
Export Csv.

(** ** The host *)

(** [QgsUnitTypes]' distance units the script meets. *)
Variant DistanceUnit : Type :=
| DistanceMeters
| DistanceKilometers
| DistanceUnknownUnit.

(** A [QgsDistanceArea]: the script sets its ellipsoid and nothing else. *)
Record QgsDistanceArea : Type := { ellipsoid : string }.

(** [QgsDistanceArea()]: no ellipsoid until one is set. *)
Definition new_QgsDistanceArea : QgsDistanceArea := {| ellipsoid := "NONE" |}.

Definition setEllipsoid (e : string) (d : QgsDistanceArea) : QgsDistanceArea :=
  {| ellipsoid := e |}.

(** [distance_measure]: a fresh [QgsDistanceArea] set to GRS80. *)
Definition distance_measure : QgsDistanceArea :=
  setEllipsoid "GRS80" new_QgsDistanceArea.

(** What the script calls and does not define: the QGIS API (parameter
    resolution against the invocation's [parameters] and [context],
    feature iteration, measurement) and the text of a float and of a
    [Path]. [Invocation] stands for the pair of [parameters] and [context]. *)
Class Host : Type := {
  Invocation : Type;
  Layer : Type;
  Feature : Type;
  Geometry : Type;
  parameterAsSource : Invocation -> string -> option Layer;
  parameterAsString : Invocation -> string -> string;
  parameterAsFileOutput : Invocation -> string -> string;
  invalidSourceError : Invocation -> string -> string;
  getFeatures : Layer -> list Feature;
  geometry : Feature -> Geometry;
  measureLength : QgsDistanceArea -> Geometry -> float;
  lengthUnits : QgsDistanceArea -> DistanceUnit;
  convertLengthMeasurement : QgsDistanceArea -> float -> DistanceUnit -> float;
  unit_toString : DistanceUnit -> string;
  (** [str(x)] for a float, as an f-string formats it. *)
  float_str : float -> string;
  (** [str(Path(s))]. *)
  path_str : string -> string
}.

(** ** The world: files and what the host observed *)

Section Model.
Context {host : Host}.

(** What the run did to its surroundings, in order. *)
Inductive event : Type :=
| EvInfo (msg : string)
| EvMeasure (d : QgsDistanceArea) (g : Geometry)
| EvOpen (path : string)
| EvWrite (path : string) (text : string)
| EvClose (path : string).

(** Files by path, and the events so far (oldest first). A path that is
    absent from [files] names no file. A file holds the text written to
    it: the encoding and the newline translation of the text layer are below
    the model, and so are failures of the file system (opening and writing
    always succeed). *)
Record world : Type := World {
  files : gmap string string;
  events : list event
}.

(** A computation reads and changes the world and returns or raises. *)
Definition M (A : Type) : Type := world -> result A * world.

Definition ret {A : Type} (a : A) : M A := fun w => (Ok a, w).

Definition raise {A : Type} (e : exn) : M A := fun w => (Raise e, w).

Definition bind {A B : Type} (m : M A) (k : A -> M B) : M B :=
  fun w =>
    match m w with
    | (Ok a, w') => k a w'
    | (Raise e, w') => (Raise e, w')
    end.

Definition lift {A : Type} (r : result A) : M A := fun w => (r, w).

Definition emit (e : event) : M unit :=
  fun w => (Ok tt, {| files := files w; events := events w ++ [e] |}).

End Model.

Notation "x <- m ;; k" := (bind m (fun x => k))
  (at level 100, m at next level, right associativity).
Notation "m ;;; k" := (bind m (fun _ => k))
  (at level 100, right associativity).

Section Algorithm.
Context {host : Host}.

(** [feedback.pushInfo(msg)]. *)
Definition pushInfo (msg : string) : M unit := emit (EvInfo msg).

(** [distance_measure.measureLength(g)]. *)
Definition measure (d : QgsDistanceArea) (g : Geometry) : M float :=
  emit (EvMeasure d g) ;;; ret (measureLength d g).

(** The constants the class defines. *)
Definition class_constants : list (string * string) :=
  [ ("TOTAL_ADDED", "TOTAL_ADDED");
    ("TOTAL_MODIFIED", "TOTAL_MODIFIED");
    ("KAART_ADDED", "KAART_ADDED");
    ("KAART_MODIFIED", "KAART_MODIFIED");
    ("COUNTRY_NAME", "COUNTRY_NAME");
    ("OUTPUT", "OUTPUT") ].

Fixpoint assoc {A : Type} (k : string) (l : list (string * A)) : option A :=
  match l with
  | [] => None
  | (k', v) :: rest => if String.eqb k k' then Some v else assoc k rest
  end.

(** [self.<attr>] for a constant. The lookup goes through the class; the
    host's base class adds methods and no constant, so a name that is not in
    [class_constants] raises. *)
Definition getattr_self (attr : string) : M string :=
  match assoc attr class_constants with
  | Some v => ret v
  | None => raise (AttributeError "ExampleProcessingAlgorithm" attr)
  end.

(** [open(path, "a")]: the file is created empty when the path names none;
    its content is never cut. *)
Definition open_append (path : string) : M string :=
  fun w =>
    let fs := match files w !! path with
              | Some _ => files w
              | None => <[path := EmptyString]> (files w)
              end in
    (Ok path, {| files := fs; events := events w ++ [EvOpen path] |}).

(** [f.tell()] right after opening for append: the end of the file. The
    script only tests it against zero. *)
Definition tell (f : string) : M Z :=
  fun w => (Ok (Z.of_nat (String.length (default EmptyString (files w !! f)))), w).

(** [f.write(text)] on a file opened for append. *)
Definition write (f : string) (text : string) : M unit :=
  fun w =>
    (Ok tt,
     {| files := <[f := default EmptyString (files w !! f) +:+ text]> (files w);
        events := events w ++ [EvWrite f text] |}).

Definition close (f : string) : M unit := emit (EvClose f).

(** [with path.open("a") as f: body]: the file is closed whether the body
    returns or raises. *)
Definition with_open_append {A : Type} (path : string) (body : string -> M A)
  : M A :=
  f <- open_append path ;;
  fun w =>
    match body f w with
    | (r, w') => (r, snd (close f w'))
    end.

(** [thewriter.writerows(rows)]: one [write] per row. *)
Fixpoint writerows (f : string) (rows : list (list cell)) : M unit :=
  match rows with
  | [] => ret tt
  | row :: rest => write f (format_row row) ;;; writerows f rest
  end.

(** [d[key]]. *)
Definition getitem (d : gmap string Z) (key : string) : M Z :=
  match d !! key with
  | Some v => ret v
  | None => raise (KeyError key)
  end.

(** [f"{x}"] for a number. *)
Definition py_str (x : pynum) : string :=
  match x with
  | PyInt z => str_of_int z
  | PyFloat f => float_str f
  end.

(** [sum(measureLength(feature.geometry()) for feature in features)]: the
    generator is consumed one feature at a time. *)
Fixpoint sum_lengths (d : QgsDistanceArea) (features : list Feature)
  (acc : pynum) : M pynum :=
  match features with
  | [] => ret acc
  | feature :: rest =>
      x <- measure d (geometry feature) ;;
      sum_lengths d rest (py_add_float acc x)
  end.

(** [for v in sources.values(): if v is None: raise ...]. The argument of
    the exception is evaluated before the exception is built. *)
Fixpoint check_sources (parameters : Invocation) (vs : list (option Layer))
  : M unit :=
  match vs with
  | [] => ret tt
  | None :: _ =>
      input <- getattr_self "INPUT" ;;
      raise (QgsProcessingException (invalidSourceError parameters input))
  | Some _ :: rest => check_sources parameters rest
  end.

(** The body of [for name, layer in sources.items()], threading the
    [distances] dict. *)
Definition measure_layer (d : QgsDistanceArea) (distances : gmap string Z)
  (name : string) (layer : option Layer) : M (gmap string Z) :=
  match layer with
  | None => raise (AttributeError "NoneType" "getFeatures")
  | Some l =>
      sumlength <- sum_lengths d (getFeatures l) (PyInt 0) ;;
      pushInfo (name +:+ " is " +:+ py_str sumlength +:+ " kilometers.") ;;;
      km <- lift (py_round (convertLengthMeasurement d (to_double sumlength)
                              DistanceKilometers)) ;;
      ret (<[name := km]> distances)
  end.

Fixpoint measure_layers (d : QgsDistanceArea)
  (items : list (string * option Layer)) (distances : gmap string Z)
  : M (gmap string Z) :=
  match items with
  | [] => ret distances
  | (name, layer) :: rest =>
      distances' <- measure_layer d distances name layer ;;
      measure_layers d rest distances'
  end.

Definition header : list cell :=
  [CStr "Country"; CStr "Data Change"; CStr "Kaart"; CStr "Total"].

(** [processAlgorithm(self, parameters, context, feedback)]; the value is
    the dict it returns, as its list of items. *)
Definition processAlgorithm (parameters : Invocation)
  : M (list (string * string)) :=
  let unittype := unit_toString (lengthUnits distance_measure) in
  pushInfo ("Length units are " +:+ unittype) ;;;
  total_added <- getattr_self "TOTAL_ADDED" ;;
  total_modified <- getattr_self "TOTAL_MODIFIED" ;;
  kaart_added <- getattr_self "KAART_ADDED" ;;
  kaart_modified <- getattr_self "KAART_MODIFIED" ;;
  let sources :=
    [ ("total_added", parameterAsSource parameters total_added);
      ("total_modified", parameterAsSource parameters total_modified);
      ("kaart_added", parameterAsSource parameters kaart_added);
      ("kaart_modified", parameterAsSource parameters kaart_modified) ] in
  country <- getattr_self "COUNTRY_NAME" ;;
  let country_name := parameterAsString parameters country in
  check_sources parameters (map snd sources) ;;;
  output <- getattr_self "OUTPUT" ;;
  let dest_path := path_str (parameterAsFileOutput parameters output) in
  distances <- measure_layers distance_measure sources ∅ ;;
  with_open_append dest_path (fun f =>
    pos <- tell f ;;
    let rows_to_write := if truthy pos then [] else [header] in
    d_kaart_added <- getitem distances "kaart_added" ;;
    d_total_added <- getitem distances "total_added" ;;
    d_kaart_modified <- getitem distances "kaart_modified" ;;
    d_total_modified <- getitem distances "total_modified" ;;
    let rows_to_write :=
      (rows_to_write ++
       [ [CStr country_name; CStr "Km of road added";
          CInt d_kaart_added; CInt d_total_added];
         [CStr country_name; CStr "Km of road edited or modified";
          CInt d_kaart_modified; CInt d_total_modified] ])%list in
    writerows f rows_to_write) ;;;
  output' <- getattr_self "OUTPUT" ;;
  ret [(output', dest_path)].

End Algorithm.

(** ** What a run is compared with *)

Section Observations.
Context {host : Host}.

(** The measured lengths of a layer's features, in iteration order. *)
Definition lengths (l : Layer) : list float :=
  map (fun feature => measureLength distance_measure (geometry feature))
      (getFeatures l).

(** The float the host hands back for a layer: its summed length in
    kilometres. *)
Definition converted (l : Layer) : float :=
  convertLengthMeasurement distance_measure (to_double (py_sum (lengths l)))
    DistanceKilometers.

(** The events of one turn of the aggregation loop. *)
Definition layer_events (name : string) (l : Layer) : list event :=
  (map (fun feature => EvMeasure distance_measure (geometry feature))
       (getFeatures l)
   ++ [EvInfo (name +:+ " is " +:+ py_str (py_sum (lengths l))
               +:+ " kilometers.")])%list.

(** The text of a file; the empty text when the path names none. *)
Definition content (w : world) (path : string) : string :=
  default EmptyString (files w !! path).

(** The messages pushed to [feedback], oldest first. *)
Fixpoint infos (evs : list event) : list string :=
  match evs with
  | [] => []
  | EvInfo msg :: rest => msg :: infos rest
  | _ :: rest => infos rest
  end.

(** The texts handed to [write], oldest first. *)
Fixpoint writes (evs : list event) : list string :=
  match evs with
  | [] => []
  | EvWrite _ text :: rest => text :: writes rest
  | _ :: rest => writes rest
  end.

(** An event of the measurement or of the output file. *)
Definition is_work (e : event) : bool :=
  match e with
  | EvInfo _ => false
  | _ => true
  end.

(** The four sources resolve, to these layers. *)
Definition resolved (parameters : Invocation)
  (total_added total_modified kaart_added kaart_modified : Layer) : Prop :=
  parameterAsSource parameters "TOTAL_ADDED" = Some total_added /\
  parameterAsSource parameters "TOTAL_MODIFIED" = Some total_modified /\
  parameterAsSource parameters "KAART_ADDED" = Some kaart_added /\
  parameterAsSource parameters "KAART_MODIFIED" = Some kaart_modified.

(** Some source does not resolve. *)
Definition some_unresolved (parameters : Invocation) : Prop :=
  parameterAsSource parameters "TOTAL_ADDED" = None \/
  parameterAsSource parameters "TOTAL_MODIFIED" = None \/
  parameterAsSource parameters "KAART_ADDED" = None \/
  parameterAsSource parameters "KAART_MODIFIED" = None.

(** What a run reads of a source: whether it resolved, and its features'
    lengths in iteration order. *)
Definition source_lengths (parameters : Invocation) (name : string)
  : option (list float) :=
  option_map lengths (parameterAsSource parameters name).

(** The [distances] dict after the aggregation loop over resolved layers,
    or the exception of the first rounding that raises. *)
Fixpoint distances_from (items : list (string * Layer))
  (distances : gmap string Z) : result (gmap string Z) :=
  match items with
  | [] => Ok distances
  | (name, l) :: rest =>
      match py_round (converted l) with
      | Ok km => distances_from rest (<[name := km]> distances)
      | Raise e => Raise e
      end
  end.

(** The four roundings return, these ints. *)
Definition rounded (total_added total_modified kaart_added kaart_modified : Layer)
  (d_total_added d_total_modified d_kaart_added d_kaart_modified : Z) : Prop :=
  py_round (converted total_added) = Ok d_total_added /\
  py_round (converted total_modified) = Ok d_total_modified /\
  py_round (converted kaart_added) = Ok d_kaart_added /\
  py_round (converted kaart_modified) = Ok d_kaart_modified.

(** [str(dest_path)] and [country_name] of an invocation. *)
Definition dest_path (parameters : Invocation) : string :=
  path_str (parameterAsFileOutput parameters "OUTPUT").

Definition country_name (parameters : Invocation) : string :=
  parameterAsString parameters "COUNTRY_NAME".

(** The rows that go before the data rows when the file at [path] is
    opened in the world [w]. *)
Definition header_rows (w : world) (path : string) : list (list cell) :=
  if truthy (Z.of_nat (String.length (content w path))) then [] else [header].

(** A text with the lines of some rows after it. *)
Definition append_rows (text : string) (rows : list (list cell)) : string :=
  fold_left (fun text row => text +:+ format_row row) rows text.

Definition added_row (country : string) (kaart total : Z) : list cell :=
  [CStr country; CStr "Km of road added"; CInt kaart; CInt total].

Definition modified_row (country : string) (kaart total : Z) : list cell :=
  [CStr country; CStr "Km of road edited or modified"; CInt kaart; CInt total].

End Observations.

(** ** A host to run the model on *)

Module Demo.

(** An invocation names its layers by parameter; a layer is the list of
    its features' lengths in metres. *)
Record invocation : Type := {
  layers : list (string * list float);
  country : string;
  output : string
}.

Definition host : Host := {|
  Invocation := invocation;
  Layer := list float;
  Feature := float;
  Geometry := float;
  parameterAsSource := fun i name => assoc name (layers i);
  parameterAsString := fun i _ => country i;
  parameterAsFileOutput := fun i _ => output i;
  invalidSourceError := fun _ name =>
    "Could not load source layer for " +:+ name +:+ ": invalid value";
  getFeatures := fun l => l;
  geometry := fun g => g;
  measureLength := fun _ g => g;
  lengthUnits := fun _ => DistanceMeters;
  convertLengthMeasurement := fun _ x u =>
    match u with
    | DistanceKilometers => (x * 0x1.0624dd2f1a9fcp-10)%float
    | _ => x
    end;
  unit_toString := fun u =>
    match u with
    | DistanceMeters => "meters"
    | DistanceKilometers => "kilometers"
    | DistanceUnknownUnit => "<unknown>"
    end;
  float_str := fun x =>
    match Prim2SF x with
    | S754_finite s m e =>
        (if s then "-" else EmptyString) +:+ str_of_int (Zpos m) +:+ "p" +:+ str_of_int e
    | S754_zero s => if s then "-0.0" else "0.0"
    | S754_infinity s => if s then "-inf" else "inf"
    | S754_nan => "nan"
    end;
  path_str := fun s => s
|}.

(** Four layers, lengths in metres. The second feature of [kaart_added]
    is the float nearest to 345.6, and the layer sums to the float nearest
    to 12345.6; [kaart_modified] has no feature. *)
Definition total_added : list float := [20000%float; 3000%float].
Definition total_modified : list float := [1800%float].
Definition kaart_added : list float := [12000%float; 0x1.599999999999ap+8%float].
Definition kaart_modified : list float := [].

Definition roads : invocation := {|
  layers :=
    [ ("TOTAL_ADDED", total_added);
      ("TOTAL_MODIFIED", total_modified);
      ("KAART_ADDED", kaart_added);
      ("KAART_MODIFIED", kaart_modified) ];
  country := "Ivory, Coast";
  output := "roads.csv"
|}.

(** The same invocation with [KAART_ADDED] unresolved. *)
Definition missing_layer : invocation := {|
  layers :=
    [ ("TOTAL_ADDED", total_added);
      ("TOTAL_MODIFIED", total_modified);
      ("KAART_MODIFIED", kaart_modified) ];
  country := "Ivory, Coast";
  output := "roads.csv"
|}.

(** [roads] with a feature of [total_modified] measured as infinite. *)
Definition unmeasurable : invocation := {|
  layers :=
    [ ("TOTAL_ADDED", total_added);
      ("TOTAL_MODIFIED", [1800%float; infinity]);
      ("KAART_ADDED", kaart_added);
      ("KAART_MODIFIED", kaart_modified) ];
  country := "Ivory, Coast";
  output := "roads.csv"
|}.

Definition no_files : @world host := {| files := ∅; events := [] |}.

Definition empty_file : @world host :=
  {| files := {[ "roads.csv" := EmptyString ]}; events := [] |}.

Definition old_file : @world host :=
  {| files := {[ "roads.csv" := "previous" ]}; events := [] |}.

(** The lines a run on [roads] writes: the country is quoted for its
    comma. *)
Definition header_line : string :=
  "Country,Data Change,Kaart,Total" +:+ lineterminator.

Definition added_line : string :=
  String quotechar ("Ivory, Coast" +:+ String quotechar
    (",Km of road added,12,23" +:+ lineterminator)).

Definition modified_line : string :=
  String quotechar ("Ivory, Coast" +:+ String quotechar
    (",Km of road edited or modified,0,2" +:+ lineterminator)).

(** Another host: a feature is a named road, and its geometry the road
    with its length; the conversion is the same. *)
Definition named_host : Host := {|
  Invocation := list (string * list (string * float)) * string * string;
  Layer := list (string * float);
  Feature := string * float;
  Geometry := string * float;
  parameterAsSource := fun i name => assoc name (fst (fst i));
  parameterAsString := fun i _ => snd (fst i);
  parameterAsFileOutput := fun i _ => snd i;
  invalidSourceError := fun _ name => "Invalid source: " +:+ name;
  getFeatures := fun l => l;
  geometry := fun road => road;
  measureLength := fun _ road => snd road;
  lengthUnits := fun _ => DistanceMeters;
  convertLengthMeasurement := @convertLengthMeasurement host;
  unit_toString := @unit_toString host;
  float_str := fun _ => "float";
  path_str := fun s => s
|}.

Definition named_roads : @Invocation named_host :=
  ([ ("TOTAL_ADDED", [("A1", 20000%float); ("A2", 3000%float)]);
     ("TOTAL_MODIFIED", [("B7", 1800%float)]);
     ("KAART_ADDED", [("A1", 12000%float); ("C3", 0x1.599999999999ap+8%float)]);
     ("KAART_MODIFIED", []) ],
   "Ivory, Coast", "roads.csv").

Definition named_old_file : @world named_host :=
  {| files := {[ "roads.csv" := "previous"; "notes.txt" := "kept" ]};
     events := [EvInfo "an earlier run"] |}.

End Demo.

(** ** The rest of the class *)

(** [initAlgorithm]: the parameters the algorithm declares to the host,
    with their translated labels. *)
Module Registration.

(** [QgsProcessing]'s source types a feature source can be limited to. *)
Variant SourceType : Type :=
| TypeVectorPoint
| TypeVectorLine
| TypeVectorPolygon.

(** A parameter definition, with the arguments the script passes to its
    constructor; [metadata] is what [setMetadata] stored. *)
Inductive parameter : Type :=
| QgsProcessingParameterFeatureSource
    (name description : string) (types : list SourceType)
| QgsProcessingParameterString (name description : string)
| QgsProcessingParameterFileDestination
    (name description fileFilter : string) (defaultValue : option string)
    (optional createByDefault : bool)
    (metadata : list (string * list (string * bool))).

Definition parameter_name (d : parameter) : string :=
  match d with
  | QgsProcessingParameterFeatureSource n _ _ => n
  | QgsProcessingParameterString n _ => n
  | QgsProcessingParameterFileDestination n _ _ _ _ _ _ => n
  end.

(** [setMetadata(m)] on a file destination. *)
Definition setMetadata (m : list (string * list (string * bool)))
  (d : parameter) : parameter :=
  match d with
  | QgsProcessingParameterFileDestination n desc filter dflt opt create _ =>
      QgsProcessingParameterFileDestination n desc filter dflt opt create m
  | _ => d
  end.

(** [self.<attr>] outside a run. *)
Definition self_constant (attr : string) : result string :=
  match assoc attr class_constants with
  | Some v => Ok v
  | None => Raise (AttributeError "ExampleProcessingAlgorithm" attr)
  end.

Definition and_then {A B : Type} (r : result A) (k : A -> result B)
  : result B :=
  match r with
  | Ok a => k a
  | Raise e => Raise e
  end.

Section Translated.
(** [QCoreApplication.translate(context, string)]. *)
Variable translate : string -> string -> string.

(** [tr(self, string)]. *)
Definition tr (s : string) : string := translate "Processing" s.

(** [self.addParameter(d)]: the definition joins the algorithm's list.
    (The host refuses a name the list already holds; the script declares
    six different names on an empty list.) *)
Definition addParameter (d : parameter) (declared : list parameter)
  : list parameter :=
  declared ++ [d].

(** [initAlgorithm(self, config)]: the parameters the algorithm has
    afterwards, from those it had. *)
Definition initAlgorithm (declared : list parameter)
  : result (list parameter) :=
  and_then (self_constant "TOTAL_ADDED") (fun total_added =>
  let declared :=
    addParameter (QgsProcessingParameterFeatureSource
                    total_added (tr "Total added") [TypeVectorLine])
                 declared in
  and_then (self_constant "TOTAL_MODIFIED") (fun total_modified =>
  let declared :=
    addParameter (QgsProcessingParameterFeatureSource
                    total_modified (tr "Total modified") [TypeVectorLine])
                 declared in
  and_then (self_constant "KAART_ADDED") (fun kaart_added =>
  let declared :=
    addParameter (QgsProcessingParameterFeatureSource
                    kaart_added (tr "Kaart added") [TypeVectorLine])
                 declared in
  and_then (self_constant "KAART_MODIFIED") (fun kaart_modified =>
  let declared :=
    addParameter (QgsProcessingParameterFeatureSource
                    kaart_modified (tr "Kaart modified") [TypeVectorLine])
                 declared in
  and_then (self_constant "COUNTRY_NAME") (fun country_name =>
  let declared :=
    addParameter (QgsProcessingParameterString
                    country_name (tr "Country name"))
                 declared in
  and_then (self_constant "OUTPUT") (fun output =>
  let fileDest :=
    QgsProcessingParameterFileDestination
      output (tr "Output csv") "CSV Files (*.csv)" None false false [] in
  let fileDest :=
    setMetadata [("widget_wrapper", [("dontconfirmoverwrite", true)])]
                fileDest in
  Ok (addParameter fileDest declared))))))).

End Translated.

End Registration.

(** ** More inputs for the demo host *)

Module DemoMore.

(** [Demo.roads] with one more layer, under a name the algorithm does not
    declare. *)
Definition with_extra_layer : Demo.invocation := {|
  Demo.layers :=
    [ ("INPUT", [1%float]);
      ("TOTAL_ADDED", Demo.total_added);
      ("TOTAL_MODIFIED", Demo.total_modified);
      ("KAART_ADDED", Demo.kaart_added);
      ("KAART_MODIFIED", Demo.kaart_modified) ];
  Demo.country := "Ivory, Coast";
  Demo.output := "roads.csv"
|}.

(** A second invocation on the same path: another country, one road. *)
Definition ghana : Demo.invocation := {|
  Demo.layers :=
    [ ("TOTAL_ADDED", [7000%float]);
      ("TOTAL_MODIFIED", []);
      ("KAART_ADDED", [7000%float]);
      ("KAART_MODIFIED", []) ];
  Demo.country := "Ghana";
  Demo.output := "roads.csv"
|}.

Definition ghana_added_line : string :=
  "Ghana,Km of road added,7,7" +:+ lineterminator.

Definition ghana_modified_line : string :=
  "Ghana,Km of road edited or modified,0,0" +:+ lineterminator.

End DemoMore.

(** ** What the extra properties are stated with *)

Section MoreObservations.
Context {host : Host}.

(** Two invocations give a declared parameter the same value, read with
    the accessor of the parameter's kind. *)
Definition reads_same (p1 p2 : Invocation) (d : Registration.parameter)
  : Prop :=
  match d with
  | Registration.QgsProcessingParameterFeatureSource n _ _ =>
      parameterAsSource p1 n = parameterAsSource p2 n
  | Registration.QgsProcessingParameterString n _ =>
      parameterAsString p1 n = parameterAsString p2 n
  | Registration.QgsProcessingParameterFileDestination n _ _ _ _ _ _ =>
      parameterAsFileOutput p1 n = parameterAsFileOutput p2 n
  end.

(** Reading a trace with the file that is open, if any: a file is opened
    when none is open, written and closed while it is the open one, and
    none is open at the end. *)
Fixpoint well_bracketed (open : option string) (evs : list event) : bool :=
  match evs with
  | [] => match open with None => true | Some _ => false end
  | EvOpen path :: rest =>
      match open with
      | None => well_bracketed (Some path) rest
      | Some _ => false
      end
  | EvWrite path _ :: rest =>
      match open with
      | Some f => String.eqb f path && well_bracketed open rest
      | None => false
      end
  | EvClose path :: rest =>
      match open with
      | Some f => String.eqb f path && well_bracketed None rest
      | None => false
      end
  | _ :: rest => well_bracketed open rest
  end.

(** The path an event of a file is about. *)
Definition event_path (e : event) : option string :=
  match e with
  | EvOpen path | EvWrite path _ | EvClose path => Some path
  | _ => None
  end.

(** An event of the output file. *)
Definition is_file_event (e : event) : bool :=
  match e with
  | EvOpen _ | EvWrite _ _ | EvClose _ => true
  | _ => false
  end.

End MoreObservations.

(** * Properties *)

(** ** Rounding *)

Section Rounding.
Local Open Scope Z_scope.

Lemma pow_pos_positive (p : positive) : 0 < Z.pow_pos 2 p.
Proof. rewrite Z.pow_pos_fold. apply Z.pow_pos_nonneg; lia. Qed.

Lemma round_half_even_near (m : Z) (p : positive) :
  let d := Z.pow_pos 2 p in
  let n := round_half_even m (Zneg p) in
  2 * Z.abs (n * d - m) <= d.
Proof.
  intros d n. subst n. unfold round_half_even. fold d.
  pose proof (pow_pos_positive p) as Hd. fold d in Hd.
  pose proof (Z.div_mod m d ltac:(lia)) as Hdm.
  pose proof (Z.mod_pos_bound m d Hd) as Hr.
  destruct (Z.compare_spec (2 * (m mod d)) d) as [He|Hl|Hg].
  - destruct (Z.even (m / d)); nia.
  - nia.
  - nia.
Qed.

Lemma pos_pow_two (p : positive) : Zpos (Pos.pow 2 p) = Z.pow_pos 2 p.
Proof. rewrite Pos2Z.inj_pow. reflexivity. Qed.

Lemma round_half_even_magnitude (m : positive) (e : Z) :
  (Qabs (inject_Z (round_half_even (Zpos m) e) - magnitude m e) <= 1 # 2)%Q.
Proof.
  apply Qabs_Qle_condition.
  destruct e as [|p|p].
  - unfold magnitude, round_half_even. split; unfold Qle; cbn; lia.
  - unfold magnitude, round_half_even. split; unfold Qle; cbn; lia.
  - pose proof (round_half_even_near (Zpos m) p) as Hn. cbv zeta in Hn.
    pose proof (pow_pos_positive p) as Hd.
    unfold magnitude.
    set (n := round_half_even (Zpos m) (Zneg p)) in *.
    unfold Qle, Qminus, Qplus, Qopp, inject_Z. cbn [Qnum Qden].
    rewrite Pos.mul_1_l. rewrite pos_pow_two.
    split; lia.
Qed.

Lemma py_round_nearest (x : float) (n : Z) :
  py_round x = Ok n ->
  exists v : Q, float_value x = Some v /\ (Qabs (inject_Z n - v) <= 1 # 2)%Q.
Proof.
  unfold py_round, float_value.
  destruct (Prim2SF x) as [s| s | |s m e]; try discriminate.
  - intros [= <-]. exists 0%Q. split; [reflexivity|]. discriminate.
  - intros [= <-].
    eexists. split; [reflexivity|].
    pose proof (round_half_even_magnitude m e) as H.
    destruct s; [|exact H].
    assert (Heq : (inject_Z (- round_half_even (Z.pos m) e) - - magnitude m e ==
                   - (inject_Z (round_half_even (Z.pos m) e) - magnitude m e))%Q)
      by (rewrite inject_Z_opp; ring).
    rewrite Heq, Qabs_opp. exact H.
Qed.

Lemma py_round_defined (x : float) (v : Q) :
  float_value x = Some v -> exists n : Z, py_round x = Ok n.
Proof.
  unfold py_round, float_value.
  destruct (Prim2SF x) as [s| s | |s m e]; try discriminate; eauto.
Qed.

(** [round] raises on the floats that denote no rational, and only
    there. *)
Lemma py_round_raises (x : float) :
  float_value x = None ->
  exists e : exn,
    py_round x = Raise e /\
    (e = ValueError "cannot convert float NaN to integer" \/
     e = OverflowError "cannot convert float infinity to integer").
Proof.
  unfold py_round, float_value.
  destruct (Prim2SF x) as [s| s | |s m e]; try discriminate; eauto.
Qed.

Lemma Qabs_integer_gap (n k : Z) (v : Q) :
  (Qabs (inject_Z n - v) <= 1 # 2)%Q ->
  (Qabs (inject_Z n - v) <= Qabs (inject_Z k - v))%Q.
Proof.
  intros Hn.
  destruct (Z.eq_dec k n) as [->|Hne]; [apply Qle_refl|].
  apply Qle_trans with (1 # 2)%Q; [exact Hn|].
  apply Qabs_Qle_condition in Hn. destruct Hn as [Hlo Hhi].
  assert (Hk : (k <= n - 1 \/ n + 1 <= k)%Z) by lia.
  destruct Hk as [Hk|Hk].
  - rewrite <- Qabs_opp. apply Qabs_ge.
    assert (Hq : (inject_Z k <= inject_Z (n + - 1))%Q)
      by (rewrite <- Zle_Qle; lia).
    rewrite inject_Z_plus in Hq. change (inject_Z (-1)) with (-1 # 1)%Q in Hq.
    lra.
  - apply Qabs_ge.
    assert (Hq : (inject_Z (n + 1) <= inject_Z k)%Q)
      by (rewrite <- Zle_Qle; lia).
    rewrite inject_Z_plus in Hq. change (inject_Z 1) with 1%Q in Hq.
    lra.
Qed.

Lemma py_round_scenario (c : float) (v : Q) :
  float_value c = Some v ->
  (Qabs (v - (123456 # 10000)) <= 1 # 10)%Q ->
  py_round c = Ok 12.
Proof.
  intros Hv Hnear.
  destruct (py_round_defined c v Hv) as [n Hn]. rewrite Hn. f_equal.
  destruct (py_round_nearest c n Hn) as (v' & Hv' & Hhalf).
  rewrite Hv in Hv'. injection Hv' as <-.
  apply Qabs_Qle_condition in Hhalf. destruct Hhalf as [Hlo Hhi].
  apply Qabs_Qle_condition in Hnear. destruct Hnear as [Hlo' Hhi'].
  assert (H1 : (inject_Z 11 < inject_Z n)%Q) by (unfold inject_Z at 1; lra).
  assert (H2 : (inject_Z n < inject_Z 13)%Q) by (unfold inject_Z at 2; lra).
  rewrite <- Zlt_Qlt in H1, H2. lia.
Qed.
End Rounding.

(** ** The text of an int *)

Lemma uint_text_plain (d : Decimal.uint) :
  needs_quotes (NilEmpty.string_of_uint d) = false.
Proof.
  induction d; cbn [NilEmpty.string_of_uint needs_quotes];
    try reflexivity; exact IHd.
Qed.

(** [str(z)] holds digits and a sign: the writer never quotes it. *)
Lemma str_of_int_plain (z : Z) : needs_quotes (str_of_int z) = false.
Proof.
  unfold str_of_int, NilZero.string_of_int, NilZero.string_of_uint.
  destruct (Z.to_int z) as [d|d]; destruct d; try reflexivity;
    cbn [needs_quotes]; apply (uint_text_plain d).
Qed.

Lemma write_field_int (z : Z) : write_field (CInt z) = str_of_int z.
Proof. unfold write_field. cbn [cell_text]. now rewrite str_of_int_plain. Qed.

(** ** Running the monad *)

Section Runs.
Context {host : Host}.

Lemma bind_run {A B : Type} (m : M A) (k : A -> M B) (w w' : world) (a : A) :
  m w = (Ok a, w') -> bind m k w = k a w'.
Proof. intros Hm. unfold bind. now rewrite Hm. Qed.

Lemma bind_raise {A B : Type} (m : M A) (k : A -> M B) (w w' : world) (e : exn) :
  m w = (Raise e, w') -> bind m k w = (Raise e, w').
Proof. intros Hm. unfold bind. now rewrite Hm. Qed.

Lemma world_eta (w : world) :
  {| files := files w; events := events w ++ [] |} = w.
Proof. destruct w as [fs evs]. simpl. now rewrite app_nil_r. Qed.

(** The generator loop measures every feature once, in order, and folds
    the lengths from the left. *)
Lemma sum_lengths_run (d : QgsDistanceArea) (features : list Feature) :
  forall (acc : pynum) (w : world),
    sum_lengths d features acc w =
    (Ok (fold_left py_add_float
           (map (fun feature => measureLength d (geometry feature)) features)
           acc),
     {| files := files w;
        events := events w ++
                  map (fun feature => EvMeasure d (geometry feature)) features |}).
Proof.
  induction features as [|feature rest IH]; intros acc w.
  - simpl. unfold ret. now rewrite world_eta.
  - cbn [sum_lengths map fold_left].
    unfold bind at 1, measure, bind, emit, ret. cbn [files events].
    rewrite IH. cbn [files events].
    now rewrite <- app_assoc.
Qed.

(** One turn of the aggregation loop whose rounding succeeds. *)
Lemma measure_layer_run (dist : gmap string Z) (name : string) (l : Layer)
  (km : Z) (w : world) :
  py_round (converted l) = Ok km ->
  measure_layer distance_measure dist name (Some l) w =
  (Ok (<[name := km]> dist),
   {| files := files w; events := events w ++ layer_events name l |}).
Proof.
  intros Hkm. unfold measure_layer.
  erewrite bind_run by apply sum_lengths_run.
  unfold pushInfo, emit, lift, ret, bind. cbn [files events].
  fold (lengths l). fold (py_sum (lengths l)). fold (converted l).
  rewrite Hkm. unfold layer_events. now rewrite <- app_assoc.
Qed.

(** One turn whose rounding raises: the message is out, nothing else. *)
Lemma measure_layer_raise (dist : gmap string Z) (name : string) (l : Layer)
  (e : exn) (w : world) :
  py_round (converted l) = Raise e ->
  measure_layer distance_measure dist name (Some l) w =
  (Raise e, {| files := files w; events := events w ++ layer_events name l |}).
Proof.
  intros Hkm. unfold measure_layer.
  erewrite bind_run by apply sum_lengths_run.
  unfold pushInfo, emit, lift, ret, bind. cbn [files events].
  fold (lengths l). fold (py_sum (lengths l)). fold (converted l).
  rewrite Hkm. unfold layer_events. now rewrite <- app_assoc.
Qed.

End Runs.

(** ** Strings and files *)

Lemma string_app_assoc (a b c : string) : (a +:+ b) +:+ c = a +:+ (b +:+ c).
Proof.
  induction a as [|x a IH]; [reflexivity|].
  change (String x ((a +:+ b) +:+ c) = String x (a +:+ (b +:+ c))).
  now rewrite IH.
Qed.

Lemma string_app_cons (c : ascii) (a b : string) :
  String c a +:+ b = String c (a +:+ b).
Proof. reflexivity. Qed.

Lemma string_app_empty_r (a : string) : a +:+ EmptyString = a.
Proof.
  induction a as [|x a IH]; [reflexivity|].
  change (String x (a +:+ EmptyString) = String x a).
  now rewrite IH.
Qed.

Section FileRuns.
Context {host : Host}.

(** [writerows] on an existing file appends the rows' lines in order. *)
Lemma writerows_run (f : string) (rows : list (list cell)) :
  forall (w : world) (old : string),
    files w !! f = Some old ->
    writerows f rows w =
    (Ok tt,
     {| files := <[f := fold_left (fun text row => text +:+ format_row row)
                           rows old]> (files w);
        events := events w ++ map (fun row => EvWrite f (format_row row)) rows |}).
Proof.
  induction rows as [|row rest IH]; intros w old Hold.
  - cbn [writerows fold_left map]. unfold ret.
    rewrite insert_id by exact Hold. now rewrite world_eta.
  - cbn [writerows fold_left map]. unfold bind at 1, write.
    rewrite Hold. cbn [default].
    erewrite IH by (cbn [files]; apply lookup_insert_eq).
    cbn [files events]. rewrite insert_insert_eq.
    now rewrite <- app_assoc.
Qed.

End FileRuns.

(** ** The whole procedure *)

Section WholeRun.
Context {host : Host}.

(** Opening for append leaves a file at the path, with the text it had. *)
Lemma open_append_run (path : string) (w : world) :
  exists fs : gmap string string,
    open_append path w =
      (Ok path, {| files := fs; events := events w ++ [EvOpen path] |}) /\
    fs !! path = Some (content w path) /\
    forall text : string, <[path := text]> fs = <[path := text]> (files w).
Proof.
  unfold open_append, content.
  destruct (files w !! path) as [old|] eqn:Hold.
  - exists (files w). cbn [default]. auto.
  - exists (<[path := EmptyString]> (files w)). cbn [default].
    split; [reflexivity|]. split; [apply lookup_insert_eq|].
    intros text. apply insert_insert_eq.
Qed.

(** The validation loop stops at the first source that is [None], on the
    lookup of [self.INPUT]. *)
Lemma check_sources_none (parameters : Invocation) (vs : list (option Layer))
  (w : world) :
  In None vs ->
  check_sources parameters vs w =
  (Raise (AttributeError "ExampleProcessingAlgorithm" "INPUT"), w).
Proof.
  induction vs as [|v rest IH]; intros Hin; [destruct Hin|].
  destruct v as [l|]; cbn [check_sources].
  - apply IH. destruct Hin as [Hin|Hin]; [discriminate|exact Hin].
  - reflexivity.
Qed.

(** A run with an unresolved source. *)
Lemma run_unresolved (parameters : Invocation) (w : world) :
  some_unresolved parameters ->
  processAlgorithm parameters w =
  (Raise (AttributeError "ExampleProcessingAlgorithm" "INPUT"),
   {| files := files w;
      events := events w ++
        [EvInfo ("Length units are " +:+
                 unit_toString (lengthUnits distance_measure))] |}).
Proof.
  intros Hnone. unfold processAlgorithm.
  unfold bind at 1, pushInfo at 1, emit.
  do 5 (erewrite bind_run by reflexivity).
  erewrite bind_raise; [reflexivity|].
  apply check_sources_none. cbn [map snd In].
  destruct Hnone as [H|[H|[H|H]]]; rewrite H; auto.
Qed.

(** The aggregation loop over resolved layers leaves the files alone. *)
Lemma measure_layers_run (items : list (string * Layer)) :
  forall (distances : gmap string Z) (w : world),
  exists evs : list event,
    measure_layers distance_measure
      (map (fun item => (fst item, Some (snd item))) items) distances w =
    (distances_from items distances,
     {| files := files w; events := events w ++ evs |}).
Proof.
  induction items as [|[name l] rest IH]; intros distances w.
  - exists []. cbn. unfold ret. now rewrite world_eta.
  - cbn [map fst snd measure_layers distances_from].
    destruct (py_round (converted l)) as [km|e] eqn:Hkm.
    + erewrite bind_run by (apply measure_layer_run; exact Hkm).
      destruct (IH (<[name := km]> distances)
                   {| files := files w;
                      events := events w ++ layer_events name l |})
        as [evs Hevs].
      exists (layer_events name l ++ evs). rewrite Hevs. cbn [files events].
      now rewrite <- app_assoc.
    + erewrite bind_raise by (apply measure_layer_raise; exact Hkm).
      now exists (layer_events name l).
Qed.

(** A run whose sources resolve and one of whose roundings raises. *)
Lemma run_round_raise (parameters : Invocation) (ta tm ka km : Layer)
  (e : exn) (w : world) :
  resolved parameters ta tm ka km ->
  distances_from [("total_added", ta); ("total_modified", tm);
                  ("kaart_added", ka); ("kaart_modified", km)] ∅ = Raise e ->
  exists evs : list event,
    processAlgorithm parameters w =
    (Raise e, {| files := files w; events := events w ++ evs |}).
Proof.
  intros (Hta & Htm & Hka & Hkm) Hraise. unfold processAlgorithm.
  unfold bind at 1, pushInfo at 1, emit.
  do 5 (erewrite bind_run by reflexivity).
  rewrite Hta, Htm, Hka, Hkm. cbn [map snd check_sources].
  erewrite bind_run by reflexivity.
  erewrite bind_run by reflexivity.
  set (w1 := {| files := files w; events := _ |}).
  destruct (measure_layers_run
              [("total_added", ta); ("total_modified", tm);
               ("kaart_added", ka); ("kaart_modified", km)] ∅ w1)
    as [evs Hevs].
  cbn [map fst snd] in Hevs. rewrite Hraise in Hevs.
  erewrite bind_raise by exact Hevs.
  eexists. subst w1. cbn [files events]. now rewrite <- app_assoc.
Qed.

(** A run whose four sources resolve and whose four roundings return. *)
Lemma run_ok (parameters : Invocation) (ta tm ka km : Layer)
  (dta dtm dka dkm : Z) (w : world) :
  resolved parameters ta tm ka km ->
  rounded ta tm ka km dta dtm dka dkm ->
  let dest := dest_path parameters in
  let rows := (header_rows w dest ++
               [added_row (country_name parameters) dka dta;
                modified_row (country_name parameters) dkm dtm])%list in
  processAlgorithm parameters w =
  (Ok [("OUTPUT", dest)],
   {| files := <[dest := append_rows (content w dest) rows]> (files w);
      events :=
        events w ++
        EvInfo ("Length units are " +:+ unit_toString (lengthUnits distance_measure))
        :: layer_events "total_added" ta ++ layer_events "total_modified" tm
        ++ layer_events "kaart_added" ka ++ layer_events "kaart_modified" km
        ++ EvOpen dest :: map (fun row => EvWrite dest (format_row row)) rows
        ++ [EvClose dest] |}).
Proof.
  intros (Hta & Htm & Hka & Hkm) (Rta & Rtm & Rka & Rkm) dest rows.
  unfold processAlgorithm.
  unfold bind at 1, pushInfo at 1, emit.
  do 5 (erewrite bind_run by reflexivity).
  rewrite Hta, Htm, Hka, Hkm. cbn [map snd check_sources].
  erewrite bind_run by reflexivity.
  erewrite bind_run by reflexivity.
  erewrite bind_run.
  2:{ cbn [measure_layers].
      erewrite bind_run by (apply measure_layer_run; eassumption).
      erewrite bind_run by (apply measure_layer_run; eassumption).
      erewrite bind_run by (apply measure_layer_run; eassumption).
      erewrite bind_run by (apply measure_layer_run; eassumption).
      reflexivity. }
  cbn [files events].
  set (w1 := {| files := files w; events := _ |}).
  destruct (open_append_run dest w1) as (fs & Hopen & Hfs & Hins).
  fold dest. unfold bind at 1, with_open_append. 
  erewrite bind_run by exact Hopen.
  unfold bind at 1, tell at 1. cbn [files]. rewrite Hfs. cbn [default].
  do 4 (erewrite bind_run by (unfold getitem; simplify_map_eq; reflexivity)).
  erewrite writerows_run by (cbn [files]; exact Hfs).
  erewrite bind_run by reflexivity.
  unfold ret, close, emit. cbn [files events snd]. rewrite Hins.
  change (content w1 dest) with (content w dest).
  unfold id. fold (header_rows w dest).
  fold (country_name parameters).
  fold (added_row (country_name parameters) dka dta).
  fold (modified_row (country_name parameters) dkm dtm).
  fold rows. fold (append_rows (content w dest) rows).
  do 2 f_equal. repeat rewrite <- app_assoc. reflexivity.
Qed.

End WholeRun.

(** ** Reading the trace and the file *)

Section Reading.
Context {host : Host}.

Lemma writes_app (evs evs' : list event) :
  writes (evs ++ evs') = writes evs ++ writes evs'.
Proof.
  induction evs as [|ev evs IH]; [reflexivity|].
  destruct ev; cbn [writes app]; now rewrite ?IH.
Qed.

Lemma infos_app (evs evs' : list event) :
  infos (evs ++ evs') = infos evs ++ infos evs'.
Proof.
  induction evs as [|ev evs IH]; [reflexivity|].
  destruct ev; cbn [infos app]; now rewrite ?IH.
Qed.

Lemma writes_measures (d : QgsDistanceArea) (features : list Feature) :
  writes (map (fun feature => EvMeasure d (geometry feature)) features) = [].
Proof. induction features as [|feature rest IH]; [reflexivity | exact IH]. Qed.

Lemma infos_measures (d : QgsDistanceArea) (features : list Feature) :
  infos (map (fun feature => EvMeasure d (geometry feature)) features) = [].
Proof. induction features as [|feature rest IH]; [reflexivity | exact IH]. Qed.

Lemma writes_layer_events (name : string) (l : Layer) :
  writes (layer_events name l) = [].
Proof. unfold layer_events. now rewrite writes_app, writes_measures. Qed.

Lemma infos_layer_events (name : string) (l : Layer) :
  infos (layer_events name l) =
  [name +:+ " is " +:+ py_str (py_sum (lengths l)) +:+ " kilometers."].
Proof. unfold layer_events. now rewrite infos_app, infos_measures. Qed.

Lemma writes_rows (path : string) (rows : list (list cell)) :
  writes (map (fun row => EvWrite path (format_row row)) rows)
  = map format_row rows.
Proof.
  induction rows as [|row rest IH]; [reflexivity|].
  cbn [map writes]. now rewrite IH.
Qed.

Lemma infos_rows (path : string) (rows : list (list cell)) :
  infos (map (fun row => EvWrite path (format_row row)) rows) = [].
Proof. induction rows as [|row rest IH]; [reflexivity | exact IH]. Qed.

(** The rows' lines follow the old text. *)
Lemma append_rows_app (text : string) (rows : list (list cell)) :
  append_rows text rows = text +:+ append_rows EmptyString rows.
Proof.
  unfold append_rows. revert text.
  induction rows as [|row rest IH]; intros text; cbn [fold_left].
  - now rewrite string_app_empty_r.
  - rewrite IH. rewrite (IH (EmptyString +:+ format_row row)).
    change (EmptyString +:+ format_row row) with (format_row row).
    now rewrite string_app_assoc.
Qed.

Lemma content_insert (fs : gmap string string) (evs : list event)
  (path text : string) :
  content {| files := <[path := text]> fs; events := evs |} path = text.
Proof. unfold content. cbn [files]. now rewrite lookup_insert_eq. Qed.

Lemma append_two_rows (text : string) (r1 r2 : list cell) :
  append_rows text [r1; r2] = text +:+ format_row r1 +:+ format_row r2.
Proof. unfold append_rows. cbn [fold_left]. now rewrite string_app_assoc. Qed.

Lemma append_three_rows (text : string) (r0 r1 r2 : list cell) :
  append_rows text [r0; r1; r2] =
  text +:+ format_row r0 +:+ format_row r1 +:+ format_row r2.
Proof.
  unfold append_rows. cbn [fold_left]. now rewrite !string_app_assoc.
Qed.

(** The header goes out exactly when the file has no text at opening. *)
Lemma header_rows_empty (w : world) (path : string) :
  content w path = EmptyString -> header_rows w path = [header].
Proof. intros H. unfold header_rows. now rewrite H. Qed.

Lemma header_rows_nonempty (w : world) (path : string) :
  content w path <> EmptyString -> header_rows w path = [].
Proof.
  intros H. unfold header_rows.
  destruct (content w path) as [|c rest]; [contradiction|reflexivity].
Qed.

(** A data row on the line: the country as the writer quotes it, the
    label, and the two ints as [str] prints them. *)
Lemma format_added_row (country : string) (kaart total : Z) :
  format_row (added_row country kaart total) =
  write_field (CStr country) +:+ ",Km of road added," +:+ str_of_int kaart
  +:+ "," +:+ str_of_int total +:+ lineterminator.
Proof.
  unfold format_row, added_row. cbn [map join_fields].
  rewrite !write_field_int.
  change (write_field (CStr "Km of road added")) with "Km of road added".
  repeat (rewrite string_app_assoc || rewrite string_app_cons). reflexivity.
Qed.

Lemma format_modified_row (country : string) (kaart total : Z) :
  format_row (modified_row country kaart total) =
  write_field (CStr country) +:+ ",Km of road edited or modified,"
  +:+ str_of_int kaart +:+ "," +:+ str_of_int total +:+ lineterminator.
Proof.
  unfold format_row, modified_row. cbn [map join_fields].
  rewrite !write_field_int.
  change (write_field (CStr "Km of road edited or modified"))
    with "Km of road edited or modified".
  repeat (rewrite string_app_assoc || rewrite string_app_cons). reflexivity.
Qed.

(** What a successful run leaves in the trace and in the output file. *)
Lemma run_ok_writes (parameters : Invocation) (ta tm ka km : Layer)
  (dta dtm dka dkm : Z) (w : world) :
  resolved parameters ta tm ka km ->
  rounded ta tm ka km dta dtm dka dkm ->
  let dest := dest_path parameters in
  let rows := (header_rows w dest ++
               [added_row (country_name parameters) dka dta;
                modified_row (country_name parameters) dkm dtm])%list in
  exists w' : world,
    processAlgorithm parameters w = (Ok [("OUTPUT", dest)], w') /\
    writes (events w') = writes (events w) ++ map format_row rows /\
    files w' = <[dest := append_rows (content w dest) rows]> (files w).
Proof.
  intros Hres Hrnd dest rows.
  eexists. split; [exact (run_ok parameters ta tm ka km dta dtm dka dkm w Hres Hrnd)|].
  cbn [files events]. split; [|reflexivity].
  rewrite writes_app. f_equal. cbn [writes].
  rewrite !writes_app, !writes_layer_events. cbn [app writes].
  rewrite writes_app, writes_rows. cbn [writes]. now rewrite app_nil_r.
Qed.

(** The four roundings all return, or the loop stops at the first that
    raises. *)
Lemma rounding_cases (ta tm ka km : Layer) :
  (exists e : exn,
     distances_from [("total_added", ta); ("total_modified", tm);
                     ("kaart_added", ka); ("kaart_modified", km)] ∅
     = Raise e) \/
  (exists dta dtm dka dkm : Z, rounded ta tm ka km dta dtm dka dkm).
Proof.
  unfold rounded. cbn [distances_from].
  destruct (py_round (converted ta)) as [dta|e]; [|left; eauto].
  destruct (py_round (converted tm)) as [dtm|e]; [|left; eauto].
  destruct (py_round (converted ka)) as [dka|e]; [|left; eauto].
  destruct (py_round (converted km)) as [dkm|e]; [|left; eauto].
  right. exists dta, dtm, dka, dkm. auto.
Qed.

(** Every run ends in one of three ways. *)
Lemma run_cases (parameters : Invocation) :
  some_unresolved parameters \/
  exists ta tm ka km : Layer,
    resolved parameters ta tm ka km /\
    ((exists e : exn,
        distances_from [("total_added", ta); ("total_modified", tm);
                        ("kaart_added", ka); ("kaart_modified", km)] ∅
        = Raise e) \/
     (exists dta dtm dka dkm : Z, rounded ta tm ka km dta dtm dka dkm)).
Proof.
  unfold some_unresolved, resolved.
  destruct (parameterAsSource parameters "TOTAL_ADDED") as [ta|]; [|auto].
  destruct (parameterAsSource parameters "TOTAL_MODIFIED") as [tm|]; [|auto].
  destruct (parameterAsSource parameters "KAART_ADDED") as [ka|]; [|auto].
  destruct (parameterAsSource parameters "KAART_MODIFIED") as [km|]; [|auto 6].
  right. exists ta, tm, ka, km. split; [auto | apply rounding_cases].
Qed.

End Reading.

(** ** The claims *)

Section Claims.
Context {host : Host}.

(** C1: when one of the four sources does not resolve, the run raises
    before anything is measured and before the output file is opened or
    written: the files are as they were, and the events the run added hold
    no measurement and no file operation. *)
Theorem C1_unresolved_source_stops_before_work
  (parameters : Invocation) (w : world) :
  some_unresolved parameters ->
  exists (e : exn) (w' : world) (evs : list event),
    processAlgorithm parameters w = (Raise e, w') /\
    files w' = files w /\
    events w' = events w ++ evs /\
    filter is_work evs = [].
Proof.
  intros Hnone. rewrite (run_unresolved parameters w Hnone).
  do 3 eexists. cbn [files events]. repeat split.
Qed.

(** C2, as the code has it: with a source unresolved the exception is the
    [AttributeError] of the lookup [self.INPUT] (the class defines no such
    constant), raised while the argument of [QgsProcessingException] is
    evaluated; no [QgsProcessingException] is raised. *)
Theorem C2_unresolved_source_raises_attribute_error
  (parameters : Invocation) (w : world) :
  some_unresolved parameters ->
  fst (processAlgorithm parameters w) =
    Raise (AttributeError "ExampleProcessingAlgorithm" "INPUT") /\
  forall msg : string,
    fst (processAlgorithm parameters w) <> Raise (QgsProcessingException msg).
Proof.
  intros Hnone. rewrite (run_unresolved parameters w Hnone). cbn [fst].
  split; [reflexivity | discriminate].
Qed.

(** C9: a run whose four sources resolve and whose four roundings return
    hands back the dict whose one item maps OUTPUT to [str(dest_path)];
    and whatever a run returns is that dict. *)
Theorem C9_returns_output_path (parameters : Invocation) (w : world) :
  (forall (ta tm ka km : Layer) (dta dtm dka dkm : Z),
     resolved parameters ta tm ka km ->
     rounded ta tm ka km dta dtm dka dkm ->
     fst (processAlgorithm parameters w) =
       Ok [("OUTPUT", path_str (parameterAsFileOutput parameters "OUTPUT"))]) /\
  (forall (w' : world) (out : list (string * string)),
     processAlgorithm parameters w = (Ok out, w') ->
     out = [("OUTPUT", path_str (parameterAsFileOutput parameters "OUTPUT"))]).
Proof.
  split.
  - intros ta tm ka km dta dtm dka dkm Hres Hrnd.
    now rewrite (run_ok parameters ta tm ka km dta dtm dka dkm w Hres Hrnd).
  - intros w' out Hrun.
    destruct (run_cases parameters)
      as [Hnone | (ta & tm & ka & km & Hres & [[e He] | (dta & dtm & dka & dkm & Hrnd)])].
    + rewrite (run_unresolved parameters w Hnone) in Hrun. discriminate.
    + destruct (run_round_raise parameters ta tm ka km e w Hres He) as [evs Hevs].
      rewrite Hevs in Hrun. discriminate.
    + rewrite (run_ok parameters ta tm ka km dta dtm dka dkm w Hres Hrnd) in Hrun.
      now injection Hrun as <- _.
Qed.

(** C5: on a path that names no file, or a file with no text, a run
    writes three rows in this order, the header, the added row and the
    modified row, and they are the whole file afterwards. *)
Theorem C5_fresh_path_header_then_two_rows (parameters : Invocation)
  (ta tm ka km : Layer) (dta dtm dka dkm : Z) (w : world) :
  resolved parameters ta tm ka km ->
  rounded ta tm ka km dta dtm dka dkm ->
  content w (dest_path parameters) = EmptyString ->
  let header_line :=
    format_row [CStr "Country"; CStr "Data Change"; CStr "Kaart"; CStr "Total"] in
  let added_line :=
    format_row [CStr (country_name parameters); CStr "Km of road added";
                CInt dka; CInt dta] in
  let modified_line :=
    format_row [CStr (country_name parameters);
                CStr "Km of road edited or modified"; CInt dkm; CInt dtm] in
  exists w' : world,
    processAlgorithm parameters w = (Ok [("OUTPUT", dest_path parameters)], w') /\
    writes (events w') =
      writes (events w) ++ [header_line; added_line; modified_line] /\
    files w' !! dest_path parameters =
      Some (header_line +:+ added_line +:+ modified_line).
Proof.
  intros Hres Hrnd Hfresh header_line added_line modified_line.
  destruct (run_ok_writes parameters ta tm ka km dta dtm dka dkm w Hres Hrnd)
    as (w' & Hrun & Hwrites & Hfiles).
  rewrite (header_rows_empty w _ Hfresh) in Hwrites, Hfiles.
  exists w'. split; [exact Hrun|]. split; [exact Hwrites|].
  rewrite Hfiles, lookup_insert_eq, Hfresh. cbn [app].
  now rewrite append_three_rows.
Qed.

(** C6: on a file that holds some text, a run writes the two data rows
    and no header; the file afterwards is its old text followed by the two
    lines, and every other file is as it was. *)
Theorem C6_nonempty_file_gets_two_rows (parameters : Invocation)
  (ta tm ka km : Layer) (dta dtm dka dkm : Z) (w : world) (old : string) :
  resolved parameters ta tm ka km ->
  rounded ta tm ka km dta dtm dka dkm ->
  files w !! dest_path parameters = Some old ->
  old <> EmptyString ->
  let added_line :=
    format_row [CStr (country_name parameters); CStr "Km of road added";
                CInt dka; CInt dta] in
  let modified_line :=
    format_row [CStr (country_name parameters);
                CStr "Km of road edited or modified"; CInt dkm; CInt dtm] in
  exists w' : world,
    processAlgorithm parameters w = (Ok [("OUTPUT", dest_path parameters)], w') /\
    writes (events w') = writes (events w) ++ [added_line; modified_line] /\
    files w' !! dest_path parameters =
      Some (old +:+ added_line +:+ modified_line) /\
    forall path : string,
      path <> dest_path parameters -> files w' !! path = files w !! path.
Proof.
  intros Hres Hrnd Hold Hne added_line modified_line.
  destruct (run_ok_writes parameters ta tm ka km dta dtm dka dkm w Hres Hrnd)
    as (w' & Hrun & Hwrites & Hfiles).
  assert (Hcontent : content w (dest_path parameters) = old)
    by (unfold content; now rewrite Hold).
  rewrite header_rows_nonempty in Hwrites, Hfiles by now rewrite Hcontent.
  exists w'. split; [exact Hrun|]. split; [exact Hwrites|].
  rewrite Hfiles. split.
  - rewrite lookup_insert_eq, Hcontent. cbn [app]. now rewrite append_two_rows.
  - intros path Hpath. now rewrite lookup_insert_ne.
Qed.

(** C7: whatever happened before, the header is written exactly when the
    position read right after opening for append is zero; so a file that
    exists with zero bytes gets the header and the two data rows. *)
Theorem C7_header_iff_position_zero (parameters : Invocation)
  (ta tm ka km : Layer) (dta dtm dka dkm : Z) (w : world) :
  resolved parameters ta tm ka km ->
  rounded ta tm ka km dta dtm dka dkm ->
  let position := Z.of_nat (String.length (content w (dest_path parameters))) in
  let header_line :=
    format_row [CStr "Country"; CStr "Data Change"; CStr "Kaart"; CStr "Total"] in
  let added_line :=
    format_row [CStr (country_name parameters); CStr "Km of road added";
                CInt dka; CInt dta] in
  let modified_line :=
    format_row [CStr (country_name parameters);
                CStr "Km of road edited or modified"; CInt dkm; CInt dtm] in
  exists w' : world,
    processAlgorithm parameters w = (Ok [("OUTPUT", dest_path parameters)], w') /\
    writes (events w') =
      writes (events w) ++
      (if (position =? 0)%Z then [header_line] else []) ++
      [added_line; modified_line] /\
    (files w !! dest_path parameters = Some EmptyString ->
     files w' !! dest_path parameters =
       Some (header_line +:+ added_line +:+ modified_line)).
Proof.
  intros Hres Hrnd position header_line added_line modified_line.
  destruct (run_ok_writes parameters ta tm ka km dta dtm dka dkm w Hres Hrnd)
    as (w' & Hrun & Hwrites & Hfiles).
  exists w'. split; [exact Hrun|]. split.
  - rewrite Hwrites. f_equal. unfold header_rows, truthy. fold position.
    now destruct (position =? 0)%Z.
  - intros Hzero.
    assert (Hcontent : content w (dest_path parameters) = EmptyString)
      by (unfold content; now rewrite Hzero).
    rewrite Hfiles, lookup_insert_eq, (header_rows_empty w _ Hcontent), Hcontent.
    cbn [app]. now rewrite append_three_rows.
Qed.

(** C4: the aggregation loop takes the layers in the order total_added,
    total_modified, kaart_added, kaart_modified: each layer's features are
    measured, then one message reports the layer's sum as it is before the
    conversion, and only then is the next layer touched; the file comes
    last. *)
Theorem C4_layers_in_fixed_order (parameters : Invocation)
  (ta tm ka km : Layer) (dta dtm dka dkm : Z) (w : world) :
  resolved parameters ta tm ka km ->
  rounded ta tm ka km dta dtm dka dkm ->
  let measures := fun l : Layer =>
    map (fun feature => EvMeasure distance_measure (geometry feature))
        (getFeatures l) in
  let message := fun (name : string) (l : Layer) =>
    name +:+ " is " +:+ py_str (py_sum (lengths l)) +:+ " kilometers." in
  let units :=
    "Length units are " +:+ unit_toString (lengthUnits distance_measure) in
  exists (w' : world) (file_events : list event),
    processAlgorithm parameters w = (Ok [("OUTPUT", dest_path parameters)], w') /\
    events w' =
      events w ++ [EvInfo units]
      ++ measures ta ++ [EvInfo (message "total_added" ta)]
      ++ measures tm ++ [EvInfo (message "total_modified" tm)]
      ++ measures ka ++ [EvInfo (message "kaart_added" ka)]
      ++ measures km ++ [EvInfo (message "kaart_modified" km)]
      ++ file_events /\
    infos file_events = [] /\
    infos (events w') =
      infos (events w) ++
      [units; message "total_added" ta; message "total_modified" tm;
       message "kaart_added" ka; message "kaart_modified" km].
Proof.
  intros Hres Hrnd measures message units.
  eexists. eexists.
  split; [exact (run_ok parameters ta tm ka km dta dtm dka dkm w Hres Hrnd)|].
  cbn [files events]. split; [|split].
  - unfold layer_events. fold measures. cbn [app].
    repeat rewrite <- app_assoc. reflexivity.
  - cbn [infos]. now rewrite infos_app, infos_rows.
  - rewrite infos_app. f_equal. cbn [infos].
    rewrite !infos_app, !infos_layer_events. cbn [app infos].
    now rewrite infos_app, infos_rows.
Qed.

(** C3: the int written for a layer is [round] of the host's conversion to
    kilometres of the [sum] of the lengths the host measures, on the GRS80
    ellipsoid, for the geometries of the layer's features; a layer without
    features sums to the int 0 and, on a host that converts a zero length to
    zero, is written as 0. *)
Theorem C3_distance_is_rounded_converted_sum (parameters : Invocation)
  (ta tm ka km : Layer) (dta dtm dka dkm : Z) (w : world) :
  resolved parameters ta tm ka km ->
  rounded ta tm ka km dta dtm dka dkm ->
  ellipsoid distance_measure = "GRS80" /\
  (forall l : Layer,
     converted l =
     convertLengthMeasurement distance_measure
       (to_double
          (py_sum (map (fun feature =>
                          measureLength distance_measure (geometry feature))
                       (getFeatures l))))
       DistanceKilometers) /\
  (exists w' : world,
     processAlgorithm parameters w = (Ok [("OUTPUT", dest_path parameters)], w') /\
     files w' !! dest_path parameters =
       Some (append_rows (content w (dest_path parameters))
               (header_rows w (dest_path parameters) ++
                [ [CStr (country_name parameters); CStr "Km of road added";
                   CInt dka; CInt dta];
                  [CStr (country_name parameters);
                   CStr "Km of road edited or modified"; CInt dkm; CInt dtm] ]))) /\
  (forall (l : Layer) (d : Z),
     In (l, d) [(ta, dta); (tm, dtm); (ka, dka); (km, dkm)] ->
     getFeatures l = [] ->
     py_sum (lengths l) = PyInt 0 /\
     (convertLengthMeasurement distance_measure 0 DistanceKilometers = 0%float ->
      d = 0)).
Proof.
  intros Hres Hrnd. split; [reflexivity|]. split; [reflexivity|]. split.
  - destruct (run_ok_writes parameters ta tm ka km dta dtm dka dkm w Hres Hrnd)
      as (w' & Hrun & _ & Hfiles).
    exists w'. split; [exact Hrun|]. rewrite Hfiles. apply lookup_insert_eq.
  - intros l d Hin Hempty.
    assert (Hsum : py_sum (lengths l) = PyInt 0)
      by (unfold lengths; now rewrite Hempty).
    split; [exact Hsum|]. intros Hzero.
    assert (Hd : py_round (converted l) = Ok d).
    { destruct Hrnd as (Rta & Rtm & Rka & Rkm). cbn [In] in Hin.
      destruct Hin as [[= <- <-]|[[= <- <-]|[[= <- <-]|[[= <- <-]|[]]]]];
        assumption. }
    unfold converted in Hd. rewrite Hsum in Hd.
    change (to_double (PyInt 0)) with 0%float in Hd. rewrite Hzero in Hd.
    change (py_round 0) with (@Ok Z 0) in Hd. now injection Hd as <-.
Qed.

(** C8: each int written is an integer nearest to the converted float (no
    integer is nearer, and the distance is at most one half), and it stands
    in its field as [str] prints it. A conversion that comes within a tenth
    of 12.3456 is written as 12. *)
Theorem C8_rounded_to_nearest_integer (parameters : Invocation)
  (ta tm ka km : Layer) (dta dtm dka dkm : Z) (w : world) :
  resolved parameters ta tm ka km ->
  rounded ta tm ka km dta dtm dka dkm ->
  (forall (l : Layer) (d : Z),
     In (l, d) [(ta, dta); (tm, dtm); (ka, dka); (km, dkm)] ->
     exists v : Q,
       float_value (converted l) = Some v /\
       (Qabs (inject_Z d - v) <= 1 # 2)%Q /\
       (forall k : Z, Qabs (inject_Z d - v) <= Qabs (inject_Z k - v))%Q /\
       ((Qabs (v - (123456 # 10000)) <= 1 # 10)%Q -> d = 12)) /\
  exists w' : world,
    processAlgorithm parameters w = (Ok [("OUTPUT", dest_path parameters)], w') /\
    files w' !! dest_path parameters =
      Some (content w (dest_path parameters)
            +:+ append_rows EmptyString (header_rows w (dest_path parameters))
            +:+ (write_field (CStr (country_name parameters))
                 +:+ ",Km of road added," +:+ str_of_int dka
                 +:+ "," +:+ str_of_int dta +:+ lineterminator)
            +:+ (write_field (CStr (country_name parameters))
                 +:+ ",Km of road edited or modified," +:+ str_of_int dkm
                 +:+ "," +:+ str_of_int dtm +:+ lineterminator)).
Proof.
  intros Hres Hrnd. split.
  - intros l d Hin.
    assert (Hd : py_round (converted l) = Ok d).
    { destruct Hrnd as (Rta & Rtm & Rka & Rkm). cbn [In] in Hin.
      destruct Hin as [[= <- <-]|[[= <- <-]|[[= <- <-]|[[= <- <-]|[]]]]];
        assumption. }
    destruct (py_round_nearest _ _ Hd) as (v & Hv & Hhalf).
    exists v. split; [exact Hv|]. split; [exact Hhalf|]. split.
    + intros k. now apply Qabs_integer_gap.
    + intros Hnear. pose proof (py_round_scenario _ _ Hv Hnear) as H12.
      rewrite Hd in H12. now injection H12.
  - destruct (run_ok_writes parameters ta tm ka km dta dtm dka dkm w Hres Hrnd)
      as (w' & Hrun & _ & Hfiles).
    exists w'. split; [exact Hrun|]. rewrite Hfiles, lookup_insert_eq. f_equal.
    rewrite append_rows_app. f_equal.
    unfold append_rows. rewrite fold_left_app. cbn [fold_left].
    rewrite <- format_added_row, <- format_modified_row.
    now rewrite string_app_assoc.
Qed.

(** X1: when the four sources resolve and the host's conversion for one of
    the layers is a NaN or an infinity, [round] raises ([ValueError] or
    [OverflowError]) inside the aggregation loop: the run ends with that
    exception and the files are as they were. *)
Theorem X1_non_finite_conversion_raises (parameters : Invocation)
  (ta tm ka km : Layer) (w : world) :
  resolved parameters ta tm ka km ->
  (exists l : Layer, In l [ta; tm; ka; km] /\ float_value (converted l) = None) ->
  exists (e : exn) (w' : world),
    processAlgorithm parameters w = (Raise e, w') /\
    files w' = files w /\
    (e = ValueError "cannot convert float NaN to integer" \/
     e = OverflowError "cannot convert float infinity to integer").
Proof.
  intros Hres (l & Hin & Hnone).
  assert (Hraise : exists e : exn,
    distances_from [("total_added", ta); ("total_modified", tm);
                    ("kaart_added", ka); ("kaart_modified", km)] ∅ = Raise e /\
    (e = ValueError "cannot convert float NaN to integer" \/
     e = OverflowError "cannot convert float infinity to integer")).
  { cbn [distances_from].
    destruct (float_value (converted ta)) as [va|] eqn:Va;
      [destruct (py_round_defined _ _ Va) as [dta ->]
      |destruct (py_round_raises _ Va) as (e & -> & He); eauto].
    destruct (float_value (converted tm)) as [vm|] eqn:Vm;
      [destruct (py_round_defined _ _ Vm) as [dtm ->]
      |destruct (py_round_raises _ Vm) as (e & -> & He); eauto].
    destruct (float_value (converted ka)) as [vk|] eqn:Vk;
      [destruct (py_round_defined _ _ Vk) as [dka ->]
      |destruct (py_round_raises _ Vk) as (e & -> & He); eauto].
    destruct (float_value (converted km)) as [vn|] eqn:Vn;
      [|destruct (py_round_raises _ Vn) as (e & -> & He); eauto].
    cbn [In] in Hin.
    destruct Hin as [<-|[<-|[<-|[<-|[]]]]]; congruence. }
  destruct Hraise as (e & He & Hkind).
  destruct (run_round_raise parameters ta tm ka km e w Hres He) as [evs Hevs].
  exists e. eexists. split; [exact Hevs|]. cbn [files]. auto.
Qed.

End Claims.

(** ** Two runs *)

Section TwoRuns.
Context (h1 h2 : Host).

(** Neither run touched the files: the text appended is empty. *)
Ltac nothing_appended :=
  exists EmptyString; cbn [fst snd]; unfold content; cbn [files];
  now rewrite !string_app_empty_r.

(** Both runs stop at a source that does not resolve. *)
Ltac both_unresolved H1 H2 :=
  rewrite (@run_unresolved h1) by (unfold some_unresolved; rewrite H1; auto 6);
  rewrite (@run_unresolved h2) by (unfold some_unresolved; rewrite H2; auto 6);
  nothing_appended.

(** Sources that read alike resolve alike, and to layers whose conversions
    agree. *)
Lemma source_agrees (p1 : @Invocation h1) (p2 : @Invocation h2) (name : string) :
  @source_lengths h1 p1 name = @source_lengths h2 p2 name ->
  (forall x : float,
     @convertLengthMeasurement h1 distance_measure x DistanceKilometers =
     @convertLengthMeasurement h2 distance_measure x DistanceKilometers) ->
  (@parameterAsSource h1 p1 name = None /\ @parameterAsSource h2 p2 name = None) \/
  (exists (l1 : @Layer h1) (l2 : @Layer h2),
     @parameterAsSource h1 p1 name = Some l1 /\
     @parameterAsSource h2 p2 name = Some l2 /\
     @converted h1 l1 = @converted h2 l2).
Proof.
  unfold source_lengths. intros Hsame Hconv.
  destruct (@parameterAsSource h1 p1 name) as [l1|];
    destruct (@parameterAsSource h2 p2 name) as [l2|];
    cbn [option_map] in Hsame; try discriminate; [right|left; auto].
  exists l1, l2. injection Hsame as Hlen.
  repeat split. unfold converted. now rewrite Hlen, Hconv.
Qed.

(** C10: two runs, on whatever hosts, that read the same lengths from each
    of the four sources in the same order (or find the same sources
    unresolved), convert alike, and have the same country name, output path
    and text in the output file, return the same result or raise the same
    exception, and append the same text to the file. *)
Theorem C10_same_inputs_same_output
  (p1 : @Invocation h1) (p2 : @Invocation h2) (w1 : @world h1) (w2 : @world h2) :
  (forall name : string,
     In name ["TOTAL_ADDED"; "TOTAL_MODIFIED"; "KAART_ADDED"; "KAART_MODIFIED"] ->
     @source_lengths h1 p1 name = @source_lengths h2 p2 name) ->
  (forall x : float,
     @convertLengthMeasurement h1 distance_measure x DistanceKilometers =
     @convertLengthMeasurement h2 distance_measure x DistanceKilometers) ->
  @country_name h1 p1 = @country_name h2 p2 ->
  @dest_path h1 p1 = @dest_path h2 p2 ->
  files w1 !! @dest_path h1 p1 = files w2 !! @dest_path h2 p2 ->
  exists text : string,
    fst (@processAlgorithm h1 p1 w1) = fst (@processAlgorithm h2 p2 w2) /\
    content (snd (@processAlgorithm h1 p1 w1)) (@dest_path h1 p1) =
      content w1 (@dest_path h1 p1) +:+ text /\
    content (snd (@processAlgorithm h2 p2 w2)) (@dest_path h2 p2) =
      content w2 (@dest_path h2 p2) +:+ text.
Proof.
  intros Hsrc Hconv Hcountry Hdest Hfile.
  assert (Hcontent : content w1 (@dest_path h1 p1) = content w2 (@dest_path h2 p2))
    by (unfold content; now rewrite Hfile).
  destruct (source_agrees p1 p2 "TOTAL_ADDED"
              (Hsrc "TOTAL_ADDED" ltac:(cbn; auto 6)) Hconv)
    as [[Ha1 Ha2]|(ta1 & ta2 & Ha1 & Ha2 & Hac)];
    [both_unresolved Ha1 Ha2|].
  destruct (source_agrees p1 p2 "TOTAL_MODIFIED"
              (Hsrc "TOTAL_MODIFIED" ltac:(cbn; auto 6)) Hconv)
    as [[Hb1 Hb2]|(tm1 & tm2 & Hb1 & Hb2 & Hbc)];
    [both_unresolved Hb1 Hb2|].
  destruct (source_agrees p1 p2 "KAART_ADDED"
              (Hsrc "KAART_ADDED" ltac:(cbn; auto 6)) Hconv)
    as [[Hc1 Hc2]|(ka1 & ka2 & Hc1 & Hc2 & Hcc)];
    [both_unresolved Hc1 Hc2|].
  destruct (source_agrees p1 p2 "KAART_MODIFIED"
              (Hsrc "KAART_MODIFIED" ltac:(cbn; auto 6)) Hconv)
    as [[Hd1 Hd2]|(km1 & km2 & Hd1 & Hd2 & Hdc)];
    [both_unresolved Hd1 Hd2|].
  assert (Hres1 : @resolved h1 p1 ta1 tm1 ka1 km1) by (repeat split; assumption).
  assert (Hres2 : @resolved h2 p2 ta2 tm2 ka2 km2) by (repeat split; assumption).
  destruct (@rounding_cases h1 ta1 tm1 ka1 km1)
    as [[e He1]|(dta & dtm & dka & dkm & Hrnd1)].
  - assert (He2 :
      @distances_from h2 [("total_added", ta2); ("total_modified", tm2);
                          ("kaart_added", ka2); ("kaart_modified", km2)] ∅
      = Raise e)
      by (cbn [distances_from] in *; now rewrite <- Hac, <- Hbc, <- Hcc, <- Hdc).
    destruct (@run_round_raise h1 p1 ta1 tm1 ka1 km1 e w1 Hres1 He1) as [evs1 Hr1].
    destruct (@run_round_raise h2 p2 ta2 tm2 ka2 km2 e w2 Hres2 He2) as [evs2 Hr2].
    rewrite Hr1, Hr2. nothing_appended.
  - assert (Hrnd2 : @rounded h2 ta2 tm2 ka2 km2 dta dtm dka dkm)
      by (unfold rounded in *; now rewrite <- Hac, <- Hbc, <- Hcc, <- Hdc).
    rewrite (@run_ok h1 p1 ta1 tm1 ka1 km1 dta dtm dka dkm w1 Hres1 Hrnd1).
    rewrite (@run_ok h2 p2 ta2 tm2 ka2 km2 dta dtm dka dkm w2 Hres2 Hrnd2).
    cbn [fst snd]. rewrite (@content_insert h1), (@content_insert h2).
    exists (append_rows EmptyString
              (@header_rows h1 w1 (@dest_path h1 p1) ++
               [added_row (@country_name h1 p1) dka dta;
                modified_row (@country_name h1 p1) dkm dtm])).
    split; [now rewrite Hdest|]. split; [apply append_rows_app|].
    rewrite append_rows_app. unfold header_rows.
    now rewrite Hcontent, Hcountry.
Qed.

End TwoRuns.

(** ** Every run *)

Section EveryRun.
Context {host : Host}.



Lemma filter_file_layer_events (name : string) (l : Layer) :
  filter is_file_event (layer_events name l) = [].
Proof.
  unfold layer_events. rewrite filter_app. cbn [filter is_file_event app].
  rewrite app_nil_r.
  induction (getFeatures l) as [|feature rest IH]; [reflexivity | exact IH].
Qed.

(** The aggregation loop adds no event of the output file. *)
Lemma measure_layers_quiet (items : list (string * Layer)) :
  forall (distances : gmap string Z) (w : world),
  exists evs : list event,
    measure_layers distance_measure
      (map (fun item => (fst item, Some (snd item))) items) distances w =
    (distances_from items distances,
     {| files := files w; events := events w ++ evs |}) /\
    filter is_file_event evs = [].
Proof.
  induction items as [|[name l] rest IH]; intros distances w.
  - exists []. split; [|reflexivity]. cbn. unfold ret. now rewrite world_eta.
  - cbn [map fst snd measure_layers distances_from].
    destruct (py_round (converted l)) as [km|e] eqn:Hkm.
    + erewrite bind_run by (apply measure_layer_run; exact Hkm).
      destruct (IH (<[name := km]> distances)
                   {| files := files w;
                      events := events w ++ layer_events name l |})
        as (evs & Hevs & Hquiet).
      exists (layer_events name l ++ evs). rewrite Hevs. cbn [files events].
      split; [now rewrite <- app_assoc|].
      now rewrite filter_app, filter_file_layer_events, Hquiet.
    + erewrite bind_raise by (apply measure_layer_raise; exact Hkm).
      exists (layer_events name l). split; [reflexivity|].
      apply filter_file_layer_events.
Qed.

(** A run that stops in the aggregation loop never reached the file. *)
Lemma run_round_raise_quiet (parameters : Invocation) (ta tm ka km : Layer)
  (e : exn) (w : world) :
  resolved parameters ta tm ka km ->
  distances_from [("total_added", ta); ("total_modified", tm);
                  ("kaart_added", ka); ("kaart_modified", km)] ∅ = Raise e ->
  exists evs : list event,
    processAlgorithm parameters w =
    (Raise e, {| files := files w; events := events w ++ evs |}) /\
    filter is_file_event evs = [].
Proof.
  intros (Hta & Htm & Hka & Hkm) Hraise. unfold processAlgorithm.
  unfold bind at 1, pushInfo at 1, emit.
  do 5 (erewrite bind_run by reflexivity).
  rewrite Hta, Htm, Hka, Hkm. cbn [map snd check_sources].
  erewrite bind_run by reflexivity.
  erewrite bind_run by reflexivity.
  set (w1 := {| files := files w; events := _ |}).
  destruct (measure_layers_quiet
              [("total_added", ta); ("total_modified", tm);
               ("kaart_added", ka); ("kaart_modified", km)] ∅ w1)
    as (evs & Hevs & Hquiet).
  cbn [map fst snd] in Hevs. rewrite Hraise in Hevs.
  erewrite bind_raise by exact Hevs.
  eexists. subst w1. cbn [files events]. rewrite <- app_assoc.
  split; [reflexivity|]. cbn [app filter is_file_event]. exact Hquiet.
Qed.


(** X3: a run, however it ends, changes no file but the one at
    [dest_path], removes no file, and only adds text at the end of that
    one. *)
Theorem X3_files_only_grow (parameters : Invocation) (w : world) :
  let w' := snd (processAlgorithm parameters w) in
  (forall path : string,
     path <> dest_path parameters -> files w' !! path = files w !! path) /\
  (forall (path : string) (old : string),
     files w !! path = Some old -> exists new, files w' !! path = Some new) /\
  exists text : string,
    content w' (dest_path parameters) =
    content w (dest_path parameters) +:+ text.
Proof.
  cbv zeta.
  destruct (run_cases parameters)
    as [Hnone | (ta & tm & ka & km & Hres & [[e He] | (dta & dtm & dka & dkm & Hrnd)])].
  - rewrite (run_unresolved parameters w Hnone). cbn [snd files].
    split; [reflexivity|]. split; [eauto|].
    exists EmptyString. unfold content. cbn [files].
    now rewrite string_app_empty_r.
  - destruct (run_round_raise parameters ta tm ka km e w Hres He) as [evs Hevs].
    rewrite Hevs. cbn [snd files].
    split; [reflexivity|]. split; [eauto|].
    exists EmptyString. unfold content. cbn [files].
    now rewrite string_app_empty_r.
  - rewrite (run_ok parameters ta tm ka km dta dtm dka dkm w Hres Hrnd).
    cbn [snd files]. split; [|split].
    + intros path Hpath. now rewrite lookup_insert_ne.
    + intros path old Hold.
      destruct (decide (dest_path parameters = path)) as [<-|Hne].
      * rewrite lookup_insert_eq. eauto.
      * rewrite lookup_insert_ne by exact Hne. eauto.
    + rewrite content_insert. eexists. apply append_rows_app.
Qed.

(** Events that are not of a file do not move the bracket. *)
Lemma well_bracketed_quiet (evs rest : list event) (open : option string) :
  filter is_file_event evs = [] ->
  well_bracketed open (evs ++ rest) = well_bracketed open rest.
Proof.
  induction evs as [|ev evs IH]; intros Hquiet; [reflexivity|].
  destruct ev; cbn [filter is_file_event] in Hquiet; try discriminate;
    cbn [app well_bracketed]; now apply IH.
Qed.

Lemma well_bracketed_rows (f : string) (rows : list (list cell))
  (rest : list event) :
  well_bracketed (Some f)
    (map (fun row => EvWrite f (format_row row)) rows ++ rest) =
  well_bracketed (Some f) rest.
Proof.
  induction rows as [|row rows IH]; [reflexivity|].
  cbn [map app well_bracketed]. now rewrite String.eqb_refl, IH.
Qed.

Lemma event_path_quiet (evs : list event) (e : event) (path : string) :
  filter is_file_event evs = [] -> In e evs -> event_path e <> Some path.
Proof.
  induction evs as [|ev evs IH]; intros Hquiet Hin; [destruct Hin|].
  destruct ev; cbn [filter is_file_event] in Hquiet; try discriminate;
    (destruct Hin as [<-|Hin]; [discriminate | now apply IH]).
Qed.

(** X5: what a run adds to the trace is well bracketed, however the run
    ends: the output file is opened at most once, written only while it is
    open, and closed before the run is over; and every file event is about
    [dest_path]. *)
Theorem X5_file_events_bracketed (parameters : Invocation) (w : world) :
  exists evs : list event,
    events (snd (processAlgorithm parameters w)) = events w ++ evs /\
    well_bracketed None evs = true /\
    forall (e : event) (path : string),
      In e evs -> event_path e = Some path -> path = dest_path parameters.
Proof.
  destruct (run_cases parameters)
    as [Hnone | (ta & tm & ka & km & Hres & [[e He] | (dta & dtm & dka & dkm & Hrnd)])].
  - rewrite (run_unresolved parameters w Hnone). cbn [snd events].
    eexists. split; [reflexivity|]. split; [reflexivity|].
    intros e path [<-|[]]. discriminate.
  - destruct (run_round_raise_quiet parameters ta tm ka km e w Hres He)
      as (evs & Hevs & Hquiet).
    rewrite Hevs. cbn [snd events]. exists evs. split; [reflexivity|]. split.
    + rewrite <- (app_nil_r evs). now rewrite well_bracketed_quiet.
    + intros ev path Hin Hpath. now destruct (event_path_quiet evs ev path).
  - rewrite (run_ok parameters ta tm ka km dta dtm dka dkm w Hres Hrnd).
    cbn [snd events]. eexists. split; [reflexivity|].
    set (rows := (header_rows w (dest_path parameters) ++ _)%list).
    split.
    + cbn [well_bracketed].
      rewrite !well_bracketed_quiet by apply filter_file_layer_events.
      cbn [well_bracketed]. rewrite well_bracketed_rows.
      cbn [well_bracketed]. now rewrite String.eqb_refl.
    + intros ev path Hin Hpath. cbn [In] in Hin.
      destruct Hin as [<-|Hin]; [discriminate|].
      repeat (apply in_app_or in Hin;
              destruct Hin as [Hin|Hin];
              [now destruct (event_path_quiet _ ev path
                               (filter_file_layer_events _ _) Hin)|]).
      destruct Hin as [<-|Hin]; [now injection Hpath as <-|].
      apply in_app_or in Hin. destruct Hin as [Hin|[<-|[]]].
      * apply in_map_iff in Hin. destruct Hin as (row & <- & _).
        now injection Hpath as <-.
      * now injection Hpath as <-.
Qed.

Lemma format_row_nonempty (row : list cell) : format_row row <> EmptyString.
Proof.
  assert (Hend : forall a : string, a +:+ lineterminator <> EmptyString)
    by (intros [|c a]; discriminate).
  unfold format_row. destruct row as [|c [|c' rest]]; try apply Hend.
  destruct (String.eqb (cell_text c) EmptyString); [discriminate | apply Hend].
Qed.

Lemma append_rows_nonempty (text : string) (rows : list (list cell))
  (row : list cell) :
  append_rows text (rows ++ [row]) <> EmptyString.
Proof.
  unfold append_rows. rewrite fold_left_app. cbn [fold_left].
  pose proof (format_row_nonempty row) as Hrow.
  destruct (fold_left _ rows text) as [|c a]; [exact Hrow | discriminate].
Qed.

(** X4: rows accumulate. After a run that succeeded, a second run on the
    same path, whatever its layers and country, writes its two data rows
    and no header: the file holds at most the one header the first run
    wrote, then the first run's two rows, then the second's. *)
Theorem X4_second_run_adds_two_rows (p1 p2 : Invocation)
  (ta1 tm1 ka1 km1 ta2 tm2 ka2 km2 : Layer)
  (dta1 dtm1 dka1 dkm1 dta2 dtm2 dka2 dkm2 : Z) (w : world) :
  resolved p1 ta1 tm1 ka1 km1 ->
  rounded ta1 tm1 ka1 km1 dta1 dtm1 dka1 dkm1 ->
  resolved p2 ta2 tm2 ka2 km2 ->
  rounded ta2 tm2 ka2 km2 dta2 dtm2 dka2 dkm2 ->
  dest_path p2 = dest_path p1 ->
  let dest := dest_path p1 in
  let first := [added_row (country_name p1) dka1 dta1;
                modified_row (country_name p1) dkm1 dtm1] in
  let second := [added_row (country_name p2) dka2 dta2;
                 modified_row (country_name p2) dkm2 dtm2] in
  exists w1 w2 : world,
    processAlgorithm p1 w = (Ok [("OUTPUT", dest)], w1) /\
    processAlgorithm p2 w1 = (Ok [("OUTPUT", dest)], w2) /\
    writes (events w2) = writes (events w1) ++ map format_row second /\
    files w2 !! dest =
      Some (append_rows (content w dest)
              (header_rows w dest ++ first ++ second)).
Proof.
  intros Hres1 Hrnd1 Hres2 Hrnd2 Hdest dest first second.
  destruct (run_ok_writes p1 ta1 tm1 ka1 km1 dta1 dtm1 dka1 dkm1 w Hres1 Hrnd1)
    as (w1 & Hrun1 & _ & Hfiles1).
  destruct (run_ok_writes p2 ta2 tm2 ka2 km2 dta2 dtm2 dka2 dkm2 w1 Hres2 Hrnd2)
    as (w2 & Hrun2 & Hwrites2 & Hfiles2).
  rewrite Hdest in Hrun2, Hwrites2, Hfiles2. fold dest in Hrun1, Hfiles1, Hrun2, Hwrites2, Hfiles2.
  fold first in Hfiles1. fold second in Hwrites2, Hfiles2.
  assert (Hcontent1 : content w1 dest =
                      append_rows (content w dest) (header_rows w dest ++ first))
    by (unfold content at 1; now rewrite Hfiles1, lookup_insert_eq).
  assert (Hnohdr : header_rows w1 dest = []).
  { apply header_rows_nonempty. rewrite Hcontent1.
    change first with ([added_row (country_name p1) dka1 dta1] ++
                       [modified_row (country_name p1) dkm1 dtm1])%list.
    rewrite app_assoc. apply append_rows_nonempty. }
  rewrite Hnohdr in Hwrites2, Hfiles2. cbn [app] in Hwrites2, Hfiles2.
  exists w1, w2. split; [exact Hrun1|]. split; [exact Hrun2|].
  split; [exact Hwrites2|].
  rewrite Hfiles2, lookup_insert_eq, Hcontent1. f_equal.
  unfold append_rows.
  rewrite (app_assoc (header_rows w dest) first second).
  symmetry. apply fold_left_app.
Qed.

End EveryRun.

(** ** Reading a line back *)

Lemma string_app_nil_l (a : string) : EmptyString +:+ a = a.
Proof. reflexivity. Qed.

(** [str] of an int can be read back. *)
Lemma str_of_int_inj (a b : Z) : str_of_int a = str_of_int b -> a = b.
Proof.
  assert (Hread : forall d : Decimal.signed_int,
             option_map Z.of_int (NilZero.int_of_string (NilZero.string_of_int d))
             = Some (Z.of_int d)).
  { intros d.
    destruct (Decimal.signed_int_beq d (Decimal.Pos Decimal.Nil)) eqn:Hp;
      [apply Decimal.internal_signed_int_dec_bl in Hp; subst d;
       now rewrite NilZero.isi_posnil|].
    destruct (Decimal.signed_int_beq d (Decimal.Neg Decimal.Nil)) eqn:Hn;
      [apply Decimal.internal_signed_int_dec_bl in Hn; subst d;
       now rewrite NilZero.isi_negnil|].
    rewrite NilZero.isi; [reflexivity| |];
      intros ->; cbn in Hp, Hn; discriminate. }
  unfold str_of_int. intros Heq.
  pose proof (Hread (Z.to_int a)) as Ha. rewrite Heq, Hread in Ha.
  injection Ha as Ha. now rewrite !DecimalZ.of_to in Ha.
Qed.

(** Two texts without special characters, each followed by the same
    special character, part at that character. *)
Lemma plain_split (x : ascii) (s1 : string) :
  forall s2 r1 r2 : string,
    is_special x = true ->
    needs_quotes s1 = false ->
    needs_quotes s2 = false ->
    s1 +:+ String x r1 = s2 +:+ String x r2 ->
    s1 = s2 /\ r1 = r2.
Proof.
  induction s1 as [|c s1 IH]; intros [|c' s2] r1 r2 Hx H1 H2 Heq;
    rewrite ?string_app_nil_l, ?string_app_cons in Heq;
    cbn [needs_quotes] in H1, H2.
  - now injection Heq as <-.
  - injection Heq as <- _. apply orb_false_iff in H2. destruct H2; congruence.
  - injection Heq as -> _. apply orb_false_iff in H1. destruct H1; congruence.
  - injection Heq as <- Heq.
    apply orb_false_iff in H1, H2.
    destruct (IH s2 r1 r2 Hx (proj2 H1) (proj2 H2) Heq) as [-> ->]. auto.
Qed.

(** A quoted text ends at the first quote that is followed by the
    delimiter. *)
Lemma quoted_split (s1 : string) :
  forall s2 r1 r2 : string,
    double_quotes s1 +:+ String quotechar (String delimiter r1) =
    double_quotes s2 +:+ String quotechar (String delimiter r2) ->
    s1 = s2 /\ r1 = r2.
Proof.
  induction s1 as [|c s1 IH]; intros [|c' s2] r1 r2 Heq;
    cbn [double_quotes] in Heq.
  - rewrite !string_app_nil_l in Heq. now injection Heq as <-.
  - destruct (Ascii.eqb_spec c' quotechar) as [->|Hc'];
      rewrite ?string_app_nil_l, ?string_app_cons in Heq.
    + injection Heq as Heq _. discriminate.
    + injection Heq as Hq _. congruence.
  - destruct (Ascii.eqb_spec c quotechar) as [->|Hc];
      rewrite ?string_app_nil_l, ?string_app_cons in Heq.
    + injection Heq as Heq _. discriminate.
    + injection Heq as Hq _. congruence.
  - destruct (Ascii.eqb_spec c quotechar) as [->|Hc];
      destruct (Ascii.eqb_spec c' quotechar) as [->|Hc'];
      rewrite ?string_app_cons in Heq.
    + injection Heq as Heq. destruct (IH s2 r1 r2 Heq) as [-> ->]. auto.
    + injection Heq as Hq _. congruence.
    + injection Heq as Hq _. congruence.
    + injection Heq as <- Heq. destruct (IH s2 r1 r2 Heq) as [-> ->]. auto.
Qed.

(** A field followed by the delimiter tells where it ends and what it
    held, quoted or not. *)
Lemma field_split (c1 c2 r1 r2 : string) :
  write_field (CStr c1) +:+ String delimiter r1 =
  write_field (CStr c2) +:+ String delimiter r2 ->
  c1 = c2 /\ r1 = r2.
Proof.
  unfold write_field. cbn [cell_text].
  destruct (needs_quotes c1) eqn:H1; destruct (needs_quotes c2) eqn:H2;
    intros Heq.
  - rewrite !string_app_cons, !string_app_assoc, !string_app_cons,
      !string_app_nil_l in Heq.
    injection Heq as Heq. now apply quoted_split.
  - destruct c2 as [|c c2]; rewrite ?string_app_nil_l, ?string_app_cons in Heq.
    + injection Heq as Heq _. discriminate.
    + injection Heq as <- _. cbn [needs_quotes] in H2.
      apply orb_false_iff in H2. destruct H2 as [H2 _]. discriminate.
  - destruct c1 as [|c c1]; rewrite ?string_app_nil_l, ?string_app_cons in Heq.
    + injection Heq as Heq _. discriminate.
    + injection Heq as -> _. cbn [needs_quotes] in H1.
      apply orb_false_iff in H1. destruct H1 as [H1 _]. discriminate.
  - now apply (plain_split delimiter).
Qed.

(** The two ints at the end of a line. *)
Lemma ints_split (k1 t1 k2 t2 : Z) :
  str_of_int k1 +:+ "," +:+ str_of_int t1 +:+ lineterminator =
  str_of_int k2 +:+ "," +:+ str_of_int t2 +:+ lineterminator ->
  k1 = k2 /\ t1 = t2.
Proof.
  intros Heq.
  destruct (plain_split delimiter _ _ _ _ eq_refl
              (str_of_int_plain k1) (str_of_int_plain k2) Heq) as [Hk Heq'].
  destruct (plain_split (ascii_of_nat 13) _ _ _ _ eq_refl
              (str_of_int_plain t1) (str_of_int_plain t2) Heq') as [Ht _].
  split; now apply str_of_int_inj.
Qed.

(** X6: a line tells its row. Two added rows (or two modified rows) that
    are written as the same line have the same country name and the same
    two ints, whatever commas, quotes or line ends the country names hold;
    no added row is written like a modified row, and no data row like the
    header. *)
Theorem X6_rows_unambiguous (c1 c2 : string) (k1 t1 k2 t2 : Z) :
  (format_row (added_row c1 k1 t1) = format_row (added_row c2 k2 t2) ->
   c1 = c2 /\ k1 = k2 /\ t1 = t2) /\
  (format_row (modified_row c1 k1 t1) = format_row (modified_row c2 k2 t2) ->
   c1 = c2 /\ k1 = k2 /\ t1 = t2) /\
  format_row (added_row c1 k1 t1) <> format_row (modified_row c2 k2 t2) /\
  format_row (added_row c1 k1 t1) <> format_row header /\
  format_row (modified_row c1 k1 t1) <> format_row header.
Proof.
  assert (Hheader : format_row header =
                    write_field (CStr "Country") +:+ String delimiter
                      ("Data Change,Kaart,Total" +:+ lineterminator))
    by reflexivity.
  rewrite Hheader, !format_added_row, !format_modified_row. repeat split.
  - apply field_split in H. now destruct H.
  - apply field_split in H. destruct H as [_ H].
    apply (String.app_inj "Km of road added,") in H.
    now destruct (ints_split _ _ _ _ H).
  - apply field_split in H. destruct H as [_ H].
    apply (String.app_inj "Km of road added,") in H.
    now destruct (ints_split _ _ _ _ H).
  - apply field_split in H. now destruct H.
  - apply field_split in H. destruct H as [_ H].
    apply (String.app_inj "Km of road edited or modified,") in H.
    now destruct (ints_split _ _ _ _ H).
  - apply field_split in H. destruct H as [_ H].
    apply (String.app_inj "Km of road edited or modified,") in H.
    now destruct (ints_split _ _ _ _ H).
  - intros H. apply field_split in H. destruct H as [_ H].
    apply (String.app_inj "Km of road ") in H. discriminate.
  - intros H. apply field_split in H. destruct H as [_ H]. discriminate.
  - intros H. apply field_split in H. destruct H as [_ H]. discriminate.
Qed.

(** ** Declared and read parameters *)

Section Declared.
Context {host : Host}.

(** The validation loop does not look at the invocation: the text of the
    exception is never built. *)
Lemma check_sources_same (p1 p2 : Invocation) (vs : list (option Layer))
  (w : world) :
  check_sources p1 vs w = check_sources p2 vs w.
Proof.
  induction vs as [|[l|] rest IH]; cbn [check_sources];
    [reflexivity | exact IH | reflexivity].
Qed.

(** X7: on an algorithm without parameters [initAlgorithm] does not
    raise and declares six, named TOTAL_ADDED, TOTAL_MODIFIED, KAART_ADDED,
    KAART_MODIFIED, COUNTRY_NAME and OUTPUT. A run depends on its invocation
    through these six only, each read with the accessor of its declared
    kind (source, string, file output): two invocations that give the six
    the same values run alike. *)
Theorem X7_run_reads_declared_parameters
  (translate : string -> string -> string) :
  exists declared : list Registration.parameter,
    Registration.initAlgorithm translate [] = Ok declared /\
    map Registration.parameter_name declared =
      ["TOTAL_ADDED"; "TOTAL_MODIFIED"; "KAART_ADDED"; "KAART_MODIFIED";
       "COUNTRY_NAME"; "OUTPUT"] /\
    forall (p1 p2 : Invocation) (w : world),
      (forall d : Registration.parameter, In d declared -> reads_same p1 p2 d) ->
      processAlgorithm p1 w = processAlgorithm p2 w.
Proof.
  eexists. split; [reflexivity|].
  split; [reflexivity|].
  intros p1 p2 w Hsame.
  pose proof (Hsame _ (or_introl eq_refl)) as Hta.
  pose proof (Hsame _ (or_intror (or_introl eq_refl))) as Htm.
  pose proof (Hsame _ (or_intror (or_intror (or_introl eq_refl)))) as Hka.
  pose proof (Hsame _ (or_intror (or_intror (or_intror (or_introl eq_refl)))))
    as Hkm.
  pose proof (Hsame _ (or_intror (or_intror (or_intror (or_intror
                         (or_introl eq_refl)))))) as Hcountry.
  pose proof (Hsame _ (or_intror (or_intror (or_intror (or_intror (or_intror
                         (or_introl eq_refl))))))) as Hout.
  cbn [reads_same] in Hta, Htm, Hka, Hkm, Hcountry, Hout.
  unfold processAlgorithm.
  cbn [bind getattr_self assoc class_constants String.eqb Ascii.eqb Bool.eqb
       ret raise check_sources map snd pushInfo emit].
  rewrite Hta, Htm, Hka, Hkm, Hcountry.
  destruct (parameterAsSource p2 "TOTAL_ADDED"); [|reflexivity].
  destruct (parameterAsSource p2 "TOTAL_MODIFIED"); [|reflexivity].
  destruct (parameterAsSource p2 "KAART_ADDED"); [|reflexivity].
  destruct (parameterAsSource p2 "KAART_MODIFIED"); [|reflexivity].
  cbn [bind ret]. rewrite Hout. reflexivity.
Qed.

End Declared.

(** ** The claims on the demo host *)

#[local] Existing Instance Demo.host.

Lemma C1_witness :
  some_unresolved (host := Demo.host) Demo.missing_layer /\
  exists (e : exn) (w' : world) (evs : list event),
    processAlgorithm Demo.missing_layer Demo.old_file = (Raise e, w') /\
    files w' = files Demo.old_file /\
    events w' = events Demo.old_file ++ evs /\
    filter is_work evs = [].
Proof.
  assert (H : some_unresolved (host := Demo.host) Demo.missing_layer)
    by (right; right; left; reflexivity).
  split; [exact H|].
  exact (C1_unresolved_source_stops_before_work
           (host := Demo.host) Demo.missing_layer Demo.old_file H).
Defined.

Lemma C2_witness :
  some_unresolved (host := Demo.host) Demo.missing_layer /\
  fst (processAlgorithm (host := Demo.host) Demo.missing_layer Demo.old_file) =
    Raise (AttributeError "ExampleProcessingAlgorithm" "INPUT").
Proof.
  assert (H : some_unresolved (host := Demo.host) Demo.missing_layer)
    by (right; right; left; reflexivity).
  split; [exact H|].
  exact (proj1 (C2_unresolved_source_raises_attribute_error
                  (host := Demo.host) Demo.missing_layer Demo.old_file H)).
Defined.

Lemma demo_resolved :
  resolved (host := Demo.host) Demo.roads Demo.total_added Demo.total_modified
           Demo.kaart_added Demo.kaart_modified.
Proof. repeat split. Qed.

Lemma demo_rounded :
  rounded (host := Demo.host) Demo.total_added Demo.total_modified
          Demo.kaart_added Demo.kaart_modified 23 2 12 0.
Proof. repeat split. Qed.

Lemma C3_witness :
  resolved (host := Demo.host) Demo.roads Demo.total_added Demo.total_modified
           Demo.kaart_added Demo.kaart_modified /\
  rounded (host := Demo.host) Demo.total_added Demo.total_modified
          Demo.kaart_added Demo.kaart_modified 23 2 12 0 /\
  (exists w' : world,
     processAlgorithm Demo.roads Demo.old_file = (Ok [("OUTPUT", "roads.csv")], w') /\
     files w' !! "roads.csv" =
       Some ("previous" +:+ Demo.added_line +:+ Demo.modified_line)) /\
  py_sum (lengths (host := Demo.host) Demo.kaart_modified) = PyInt 0.
Proof.
  split; [exact demo_resolved|]. split; [exact demo_rounded|].
  destruct (C3_distance_is_rounded_converted_sum (host := Demo.host)
              Demo.roads Demo.total_added Demo.total_modified
              Demo.kaart_added Demo.kaart_modified 23 2 12 0 Demo.old_file
              demo_resolved demo_rounded)
    as (_ & _ & (w' & Hrun & Hfile) & Hempty).
  split.
  - exists w'. split; [exact Hrun | exact Hfile].
  - exact (proj1 (Hempty Demo.kaart_modified 0
                    (or_intror (or_intror (or_intror (or_introl eq_refl))))
                    eq_refl)).
Defined.

Lemma C4_witness :
  exists w' : world,
    processAlgorithm Demo.roads Demo.no_files = (Ok [("OUTPUT", "roads.csv")], w') /\
    infos (events w') =
      [ "Length units are meters";
        "total_added is 6322191859712000p-38 kilometers.";
        "total_modified is 7916483719987200p-42 kilometers.";
        "kaart_added is 6787065375935693p-39 kilometers.";
        "kaart_modified is 0 kilometers." ].
Proof.
  destruct (C4_layers_in_fixed_order (host := Demo.host)
              Demo.roads Demo.total_added Demo.total_modified
              Demo.kaart_added Demo.kaart_modified 23 2 12 0 Demo.no_files
              demo_resolved demo_rounded)
    as (w' & file_events & Hrun & _ & _ & Hinfos).
  exists w'. split; [exact Hrun | exact Hinfos].
Defined.

Lemma C5_witness :
  content Demo.no_files "roads.csv" = EmptyString /\
  exists w' : world,
    processAlgorithm Demo.roads Demo.no_files = (Ok [("OUTPUT", "roads.csv")], w') /\
    writes (events w') =
      [Demo.header_line; Demo.added_line; Demo.modified_line] /\
    files w' !! "roads.csv" =
      Some (Demo.header_line +:+ Demo.added_line +:+ Demo.modified_line).
Proof.
  split; [reflexivity|].
  exact (C5_fresh_path_header_then_two_rows (host := Demo.host)
           Demo.roads Demo.total_added Demo.total_modified
           Demo.kaart_added Demo.kaart_modified 23 2 12 0 Demo.no_files
           demo_resolved demo_rounded eq_refl).
Defined.

Lemma C6_witness :
  files Demo.old_file !! "roads.csv" = Some "previous" /\
  exists w' : world,
    processAlgorithm Demo.roads Demo.old_file = (Ok [("OUTPUT", "roads.csv")], w') /\
    writes (events w') = [Demo.added_line; Demo.modified_line] /\
    files w' !! "roads.csv" =
      Some ("previous" +:+ Demo.added_line +:+ Demo.modified_line).
Proof.
  split; [reflexivity|].
  destruct (C6_nonempty_file_gets_two_rows (host := Demo.host)
              Demo.roads Demo.total_added Demo.total_modified
              Demo.kaart_added Demo.kaart_modified 23 2 12 0 Demo.old_file
              "previous" demo_resolved demo_rounded eq_refl
              ltac:(discriminate))
    as (w' & Hrun & Hwrites & Hfile & _).
  exists w'. split; [exact Hrun|]. split; [exact Hwrites | exact Hfile].
Defined.

Lemma C7_witness :
  files Demo.empty_file !! "roads.csv" = Some EmptyString /\
  exists w' : world,
    processAlgorithm Demo.roads Demo.empty_file = (Ok [("OUTPUT", "roads.csv")], w') /\
    writes (events w') =
      [Demo.header_line; Demo.added_line; Demo.modified_line] /\
    files w' !! "roads.csv" =
      Some (Demo.header_line +:+ Demo.added_line +:+ Demo.modified_line).
Proof.
  split; [reflexivity|].
  destruct (C7_header_iff_position_zero (host := Demo.host)
              Demo.roads Demo.total_added Demo.total_modified
              Demo.kaart_added Demo.kaart_modified 23 2 12 0 Demo.empty_file
              demo_resolved demo_rounded)
    as (w' & Hrun & Hwrites & Hfile).
  exists w'. split; [exact Hrun|]. split; [exact Hwrites | exact (Hfile eq_refl)].
Defined.

(** The scenario of 12345.6 m: [kaart_added] sums to the float nearest to
    12345.6, the host converts it to the float next to 12.3456, and 12 is
    what the row holds. *)
Lemma C8_witness :
  resolved (host := Demo.host) Demo.roads Demo.total_added Demo.total_modified
           Demo.kaart_added Demo.kaart_modified /\
  rounded (host := Demo.host) Demo.total_added Demo.total_modified
          Demo.kaart_added Demo.kaart_modified 23 2 12 0 /\
  py_sum (lengths (host := Demo.host) Demo.kaart_added) =
    PyFloat 0x1.81ccccccccccdp+13 /\
  float_value (converted (host := Demo.host) Demo.kaart_added) =
    Some (6949954944958150 # 562949953421312)%Q /\
  (Qabs ((6949954944958150 # 562949953421312) - (123456 # 10000)) <= 1 # 10)%Q /\
  (Qabs (inject_Z 12 - (6949954944958150 # 562949953421312)) <= 1 # 2)%Q /\
  exists w' : world,
    processAlgorithm Demo.roads Demo.no_files = (Ok [("OUTPUT", "roads.csv")], w') /\
    files w' !! "roads.csv" =
      Some (Demo.header_line +:+ Demo.added_line +:+ Demo.modified_line).
Proof.
  split; [exact demo_resolved|]. split; [exact demo_rounded|].
  split; [reflexivity|]. split; [reflexivity|]. split; [discriminate|].
  destruct (C8_rounded_to_nearest_integer (host := Demo.host)
              Demo.roads Demo.total_added Demo.total_modified
              Demo.kaart_added Demo.kaart_modified 23 2 12 0 Demo.no_files
              demo_resolved demo_rounded)
    as (Hnear & w' & Hrun & Hfile).
  split.
  - destruct (Hnear Demo.kaart_added 12
                (or_intror (or_intror (or_introl eq_refl))))
      as (v & Hv & Hhalf & _).
    injection Hv as <-. exact Hhalf.
  - exists w'. split; [exact Hrun | exact Hfile].
Defined.

Lemma C9_witness :
  fst (processAlgorithm Demo.roads Demo.old_file) = Ok [("OUTPUT", "roads.csv")].
Proof.
  exact (proj1 (C9_returns_output_path (host := Demo.host) Demo.roads Demo.old_file)
           Demo.total_added Demo.total_modified
           Demo.kaart_added Demo.kaart_modified 23 2 12 0
           demo_resolved demo_rounded).
Defined.

(** Two hosts that model features differently and measure the same lengths. *)
Lemma C10_witness :
  exists text : string,
    fst (@processAlgorithm Demo.host Demo.roads Demo.old_file) =
      fst (@processAlgorithm Demo.named_host Demo.named_roads Demo.named_old_file) /\
    @content Demo.host (snd (@processAlgorithm Demo.host Demo.roads Demo.old_file))
      "roads.csv" = "previous" +:+ text /\
    @content Demo.named_host
      (snd (@processAlgorithm Demo.named_host Demo.named_roads Demo.named_old_file))
      "roads.csv" = "previous" +:+ text.
Proof.
  apply (C10_same_inputs_same_output Demo.host Demo.named_host
           Demo.roads Demo.named_roads Demo.old_file Demo.named_old_file).
  - intros name [<-|[<-|[<-|[<-|[]]]]]; reflexivity.
  - reflexivity.
  - reflexivity.
  - reflexivity.
  - reflexivity.
Defined.

Lemma demo_unmeasurable_resolved :
  resolved (host := Demo.host) Demo.unmeasurable Demo.total_added
           [1800%float; infinity] Demo.kaart_added Demo.kaart_modified.
Proof. repeat split. Qed.

(** An infinite length: the run raises [OverflowError] and [roads.csv] keeps
    its text. *)
Lemma X1_witness :
  float_value (converted (host := Demo.host) [1800%float; infinity]) = None /\
  exists (e : exn) (w' : world),
    processAlgorithm Demo.unmeasurable Demo.old_file = (Raise e, w') /\
    files w' = files Demo.old_file.
Proof.
  split; [reflexivity|].
  destruct (X1_non_finite_conversion_raises (host := Demo.host)
              Demo.unmeasurable Demo.total_added [1800%float; infinity]
              Demo.kaart_added Demo.kaart_modified Demo.old_file
              demo_unmeasurable_resolved
              (ex_intro _ [1800%float; infinity]
                 (conj (or_intror (or_introl eq_refl)) eq_refl)))
    as (e & w' & Hrun & Hfiles & _).
  exists e, w'. split; [exact Hrun | exact Hfiles].
Defined.


Lemma demo_ghana_resolved :
  resolved (host := Demo.host) DemoMore.ghana [7000%float] [] [7000%float] [].
Proof. repeat split. Qed.

Lemma demo_ghana_rounded :
  rounded (host := Demo.host) [7000%float] [] [7000%float] [] 7 0 7 0.
Proof. repeat split. Qed.

(** Two runs on a path that names no file: one header, then the four
    data lines. *)
Lemma X4_witness :
  exists w1 w2 : world,
    processAlgorithm Demo.roads Demo.no_files = (Ok [("OUTPUT", "roads.csv")], w1) /\
    processAlgorithm DemoMore.ghana w1 = (Ok [("OUTPUT", "roads.csv")], w2) /\
    files w2 !! "roads.csv" =
      Some (Demo.header_line +:+ Demo.added_line +:+ Demo.modified_line
            +:+ DemoMore.ghana_added_line +:+ DemoMore.ghana_modified_line).
Proof.
  destruct (X4_second_run_adds_two_rows (host := Demo.host)
              Demo.roads DemoMore.ghana
              Demo.total_added Demo.total_modified
              Demo.kaart_added Demo.kaart_modified
              [7000%float] [] [7000%float] []
              23 2 12 0 7 0 7 0 Demo.no_files
              demo_resolved demo_rounded
              demo_ghana_resolved demo_ghana_rounded eq_refl)
    as (w1 & w2 & Hrun1 & Hrun2 & _ & Hfile).
  exists w1, w2. split; [exact Hrun1|]. split; [exact Hrun2 | exact Hfile].
Defined.

(** A comma inside the country name does not pass for a field separator. *)
Lemma X6_witness :
  format_row (added_row "Ivory, Coast" 12 23) <>
  format_row (added_row "Ivory" 12 23).
Proof.
  intros Heq.
  destruct (proj1 (X6_rows_unambiguous "Ivory, Coast" "Ivory" 12 23 12 23) Heq)
    as [Hcountry _].
  discriminate Hcountry.
Defined.

(** A layer under an undeclared name changes nothing. *)
Lemma X7_witness :
  processAlgorithm DemoMore.with_extra_layer Demo.old_file =
  processAlgorithm Demo.roads Demo.old_file.
Proof.
  destruct (X7_run_reads_declared_parameters (host := Demo.host)
              (fun _ s => s))
    as (added & Hinit & _ & Hsame).
  apply Hsame. injection Hinit as <-.
  intros d [<-|[<-|[<-|[<-|[<-|[<-|[]]]]]]]; reflexivity.
Defined.
